(** * RotorHazardLidar: the LIDAR visualisation component

    A shallow embedding of the React component [LidarVisualization] and of
    its variants found in the repository:

    - [static/lidar-viz.js] (and the textually equivalent [part_003]):
      fetches [/lidar/data], keeps the raw threshold, classifies points
      against the gate and reflects the vertical axis;
    - [part_000] / [part_004]: the fetch effect that clears the error and
      divides the threshold by 10;
    - [part_001]: the same fetch effect with the state updates placed after
      the [if]/[else], and the wedge renderer;
    - [lidar-viz.js] (repository root): the web-socket variant, with its
      message handler and its renderer;
    - [part_002]: the test component, and the start-up script it shares
      with [static/lidar-viz.js].

    JavaScript numbers are IEEE-754 binary64 values.  The embedding is
    written once over an interface of the operations the code uses
    ([JSNumber]) and instantiated twice: with Rocq's primitive binary64
    floats, which is what the browser computes, and with exact rationals,
    which is what the arithmetic means when nothing is rounded. *)

From Stdlib Require Import ZArith QArith Floats Bool List String Lia.
Import ListNotations.

Set Warnings "-inexact-float".

(** ** JavaScript numbers *)

Declare Scope js_scope.
Delimit Scope js_scope with js.

(** The numeric operations that occur in the sources: literals, the four
    arithmetic operators, unary minus, [<] and the constant [Math.PI]. *)
Class JSNumber (num : Type) : Type := {
  num_lit : Z -> num;
  num_add : num -> num -> num;
  num_sub : num -> num -> num;
  num_mul : num -> num -> num;
  num_div : num -> num -> num;
  num_neg : num -> num;
  num_lt : num -> num -> bool;
  Math_PI : num
}.

(** [a > b] compares the same two numbers as [b < a]. *)
Definition num_gt {num} `{JSNumber num} (a b : num) : bool := num_lt b a.

Notation "$ z" := (num_lit z%Z) (at level 1, format "$ z") : js_scope.
Infix "+" := num_add : js_scope.
Infix "-" := num_sub : js_scope.
Infix "*" := num_mul : js_scope.
Infix "/" := num_div : js_scope.
Notation "- a" := (num_neg a) : js_scope.
Infix "<?" := num_lt : js_scope.
Infix ">?" := num_gt (at level 70) : js_scope.

(** An integer literal as a binary64 value (exact below 2^53). *)
Definition float_of_Z (z : Z) : float :=
  match z with
  | Z0 => PrimFloat.of_uint63 (Uint63.of_Z 0)
  | Zpos _ => PrimFloat.of_uint63 (Uint63.of_Z z)
  | Zneg _ => PrimFloat.opp (PrimFloat.of_uint63 (Uint63.of_Z (Z.opp z)))
  end.

(** What the browser computes: binary64, round to nearest even. *)
#[export] Instance float_number : JSNumber float := {
  num_lit := float_of_Z;
  num_add := PrimFloat.add;
  num_sub := PrimFloat.sub;
  num_mul := PrimFloat.mul;
  num_div := PrimFloat.div;
  num_neg := PrimFloat.opp;
  num_lt := PrimFloat.ltb;
  Math_PI := 0x1.921fb54442d18p+1%float
}.

Definition Qltb (a b : Q) : bool :=
  match Qcompare a b with Lt => true | _ => false end.

(** Exact arithmetic: the same operations without rounding.  [Math.PI] is
    the rational number the binary64 constant denotes. *)
#[export] Instance exact_number : JSNumber Q := {
  num_lit := inject_Z;
  num_add := Qplus;
  num_sub := Qminus;
  num_mul := Qmult;
  num_div := Qdiv;
  num_neg := Qopp;
  num_lt := Qltb;
  Math_PI := (884279719003555 # 281474976710656)%Q
}.

(** ** Values that may be [undefined]

    A number read from a missing field is [undefined]; arithmetic on it
    gives [NaN] and every comparison with it is false.  Both are [None]. *)

Definition jsnum (num : Type) : Type := option num.

Definition jsnum_div {num} `{JSNumber num} (a : jsnum num) (b : num) : jsnum num :=
  option_map (fun v => (v / b)%js) a.

Definition jsnum_mul {num} `{JSNumber num} (a : jsnum num) (b : num) : jsnum num :=
  option_map (fun v => (v * b)%js) a.

(** [a < b] where [b] may be [undefined]. *)
Definition jsnum_lt_r {num} `{JSNumber num} (a : num) (b : jsnum num) : bool :=
  match b with
  | Some v => (a <? v)%js
  | None => false
  end.

(** Truthiness of a string-valued field: missing, [null] and the empty
    string are falsy. *)
Definition truthy (s : option string) : bool :=
  match s with
  | Some v => negb (String.eqb v EmptyString)
  | None => false
  end.

(** ** Data model *)

Section DataModel.
Context {num : Type}.

(** A point record of the payload: [{x, y, angle, distance}]. *)
Record Point : Type := mkPoint {
  x : num;
  y : num;
  angle : num;
  distance : num
}.

(** The body of a response of [/lidar/data], each field possibly
    missing: [data.error], [data.scan], [data.threshold]. *)
Record Payload : Type := mkPayload {
  data_error : option string;
  data_scan : option (list Point);
  data_threshold : jsnum num
}.

(** How [await fetch(...)] followed by [await response.json()] ends:
    with the parsed body, or with an exception [err] (network failure, a
    body that is not JSON) of which only [err.message] is used. *)
Inductive Response : Type :=
| Resolved (data : Payload)
| Rejected (err_message : string).

(** The three [useState] cells of the component. *)
Record ShellState : Type := mkShell {
  scanData : option (list Point);
  threshold : jsnum num;
  error : option string
}.

(** A call of one of the state setters. *)
Inductive SetCall : Type :=
| setScanData (v : option (list Point))
| setThreshold (v : jsnum num)
| setError (v : option string).

Definition apply_call (s : ShellState) (c : SetCall) : ShellState :=
  match c with
  | setScanData v => mkShell v (threshold s) (error s)
  | setThreshold v => mkShell (scanData s) v (error s)
  | setError v => mkShell (scanData s) (threshold s) v
  end.

Definition apply_calls (s : ShellState) (cs : list SetCall) : ShellState :=
  fold_left apply_call cs s.

(** [data.scan || []]: an array, even an empty one, is truthy. *)
Definition scan_or_empty (v : option (list Point)) : option (list Point) :=
  match v with
  | Some l => Some l
  | None => Some []
  end.

Definition is_setError_message (c : SetCall) : bool :=
  match c with
  | setError (Some _) => true
  | _ => false
  end.

Definition is_setScanData (c : SetCall) : bool :=
  match c with
  | setScanData _ => true
  | _ => false
  end.

Definition is_setThreshold (c : SetCall) : bool :=
  match c with
  | setThreshold _ => true
  | _ => false
  end.

(** The two outcomes of a request, read off the setter calls it made:
    the snapshot update sets the scan data and the threshold, the error
    report sets an error message. *)
Definition delivers_snapshot (cs : list SetCall) : bool :=
  existsb is_setScanData cs && existsb is_setThreshold cs.

Definition delivers_error (cs : list SetCall) : bool :=
  existsb is_setError_message cs.

End DataModel.

Arguments Point : clear implicits.
Arguments Payload : clear implicits.
Arguments Response : clear implicits.
Arguments ShellState : clear implicits.
Arguments SetCall : clear implicits.

(** ** The fetch effect, variant by variant

    [fetchData r] is the body of [fetchData] after its two [await]s, given
    how they ended: the list of setter calls it makes, in order.  A setter
    call re-renders the component, and a drawing pass that follows it may
    raise; such an exception reaches the [catch] of [fetchData] and is no
    part of these lists: they are the calls made when every drawing pass
    in between completes.  The [try] itself is [static_fetchData_try],
    further down. *)

Module StaticViz.
Section Fetch.
Context {num : Type} `{JSNumber num}.

(** [useState([])], [useState(1000)], [useState(null)]. *)
Definition initial : ShellState num :=
  mkShell (Some []) (Some $1000%js) None.

Definition fetchData (r : Response num) : list (SetCall num) :=
  match r with
  | Resolved data =>
      if truthy (data_error data) then
        [setError (data_error data)]
      else
        [setScanData (data_scan data); setThreshold (data_threshold data)]
  | Rejected err_message =>
      [setError (Some ("Failed to fetch LIDAR data: " ++ err_message)%string)]
  end.
End Fetch.
End StaticViz.

Module Part000.
Section Fetch.
Context {num : Type} `{JSNumber num}.

(** [useState([])], [useState(100)], [useState(null)]. *)
Definition initial : ShellState num :=
  mkShell (Some []) (Some $100%js) None.

Definition fetchData (r : Response num) : list (SetCall num) :=
  match r with
  | Resolved data =>
      if truthy (data_error data) then
        [setError (data_error data)]
      else
        [setError None;
         setScanData (scan_or_empty (data_scan data));
         setThreshold (jsnum_div (data_threshold data) $10%js)]
  | Rejected _ =>
      [setError (Some "Failed to fetch LIDAR data"%string)]
  end.
End Fetch.
End Part000.

Module Part001.
Section Fetch.
Context {num : Type} `{JSNumber num}.

Definition initial : ShellState num :=
  mkShell (Some []) (Some $100%js) None.

(** Here the closing brace of the [else] comes before the two state
    updates, so they run on both branches. *)
Definition fetchData (r : Response num) : list (SetCall num) :=
  match r with
  | Resolved data =>
      (if truthy (data_error data) then
         [setError (data_error data)]
       else
         [setError None])
      ++ [setScanData (scan_or_empty (data_scan data));
          setThreshold (jsnum_div (data_threshold data) $10%js)]
  | Rejected _ =>
      [setError (Some "Failed to fetch LIDAR data"%string)]
  end.
End Fetch.
End Part001.

(** ** The drawing surface

    The 2D context is an external collaborator: a drawing pass is the list
    of the property assignments and method calls it makes on [ctx]. *)

Section Surface.
Context {num : Type}.

(** [canvasRef.current] when it is not [null]. *)
Record Canvas : Type := mkCanvas {
  width : num;
  height : num
}.

(** The text argument of [fillText]: a string literal, a number (printed
    by the context), or the template [`${r}cm`]. *)
Inductive Text : Type :=
| TextLiteral (s : string)
| TextNumber (n : num)
| TextCm (n : num).

Inductive Cmd : Type :=
| fillStyle (color : string)
| strokeStyle (color : string)
| lineWidth (w : num)
| font (f : string)
| fillRect (x0 y0 w h : num)
| clearRect (x0 y0 w h : num)
| beginPath
| arc (cx cy : num) (radius : jsnum num) (startAngle endAngle : num)
| moveTo (x0 y0 : num)
| lineTo (x0 y0 : num)
| stroke
| fill
| fillText (t : Text) (x0 y0 : num).

(** How a drawing pass ends: normally, or with a [TypeError] raised by
    the component's own code; either way with the calls made so far. *)
Inductive Outcome : Type :=
| Returns (cmds : list Cmd)
| Throws (cmds : list Cmd).

Definition drawn (o : Outcome) : list Cmd :=
  match o with
  | Returns cmds => cmds
  | Throws cmds => cmds
  end.

(** Whether the code of the component raised.  What the 2D context does
    with the calls is told by [context_raises], further down. *)
Definition throws (o : Outcome) : bool :=
  match o with
  | Returns _ => false
  | Throws _ => true
  end.

(** [array.forEach((v, index) => ...)]: the elements with their index. *)
Fixpoint indexed_from {A : Type} (i : Z) (l : list A) : list (Z * A) :=
  match l with
  | [] => []
  | a :: l' => (i, a) :: indexed_from (i + 1) l'
  end.

Definition is_arc (c : Cmd) : bool :=
  match c with
  | arc _ _ _ _ _ => true
  | _ => false
  end.

(** The dots of a drawing pass: the arcs that are filled at once.  (The
    circles and gate arcs are stroked; a wedge is closed by [lineTo]
    before it is filled.) *)
Fixpoint filled_arcs (cmds : list Cmd) : list Cmd :=
  match cmds with
  | [] => []
  | c :: rest =>
      match c, rest with
      | arc _ _ _ _ _, fill :: _ => c :: filled_arcs rest
      | _, _ => filled_arcs rest
      end
  end.

End Surface.

Arguments Canvas : clear implicits.
Arguments Text : clear implicits.
Arguments Cmd : clear implicits.
Arguments Outcome : clear implicits.

(** ** The drawing effect of [static/lidar-viz.js] (and [part_003]) *)

Module StaticRender.
Section Render.
Context {num : Type} `{JSNumber num}.

Definition scale : num := $2%js.

(** The classification computed for each point in the [forEach]. *)
Definition isInGateArea (point : Point num) (threshold : jsnum num) : bool :=
  ((angle point <? $10)%js || (angle point >? $350)%js)
  && jsnum_lt_r (distance point * $10)%js threshold.

(** The radius, in canonical units, at which the two gate arcs are drawn:
    the sub-expression [threshold / 10] of both [ctx.arc] calls. *)
Definition gateRadius (threshold : jsnum num) : jsnum num :=
  jsnum_div threshold $10%js.

Definition drawCircle (centerX centerY radius : num) : list (Cmd num) :=
  [beginPath;
   arc centerX centerY (Some (radius * scale)%js) $0%js ($2 * Math_PI)%js;
   stroke].

Definition drawGate (centerX centerY : num) (threshold : jsnum num) : list (Cmd num) :=
  [strokeStyle "#ffc107";
   beginPath;
   arc centerX centerY (jsnum_mul (gateRadius threshold) scale)
       (- Math_PI / $18)%js (Math_PI / $18)%js;
   stroke;
   beginPath;
   arc centerX centerY (jsnum_mul (gateRadius threshold) scale)
       (Math_PI - Math_PI / $18)%js (Math_PI + Math_PI / $18)%js;
   stroke].

(** The body of [scanData.forEach(point => ...)]. *)
Definition drawPoint (centerX centerY : num) (threshold : jsnum num)
    (point : Point num) : list (Cmd num) :=
  [fillStyle (if isInGateArea point threshold then "#dc3545" else "#0d6efd");
   beginPath;
   arc (centerX + x point * scale)%js (centerY - y point * scale)%js
       (Some $2%js) $0%js ($2 * Math_PI)%js;
   fill].

Definition drawLegend : list (Cmd num) :=
  [font "12px Arial";
   fillStyle "#495057";
   fillText (TextLiteral "Distance (cm):") $10%js $20%js]
  ++ flat_map
       (fun ir : Z * num =>
          [fillText (TextNumber (snd ir * $10)%js) $10%js
                    ($40 + num_lit (fst ir) * $20)%js])
       (indexed_from 0 [$50; $100; $150; $200]%js).

(** Everything drawn before the points. *)
Definition drawBackdrop (canvas : Canvas num) (threshold : jsnum num) : list (Cmd num) :=
  let centerX := (width canvas / $2)%js in
  let centerY := (height canvas / $2)%js in
  [fillStyle "#f8f9fa";
   fillRect $0%js $0%js (width canvas) (height canvas);
   strokeStyle "#dee2e6"]
  ++ flat_map (drawCircle centerX centerY) [$50; $100; $150; $200]%js
  ++ drawGate centerX centerY threshold.

(** The second [useEffect].  [scanData.forEach] on [undefined] raises a
    [TypeError] after the backdrop has been drawn. *)
Definition render (canvasRef : option (Canvas num))
    (scanData : option (list (Point num))) (threshold : jsnum num) : Outcome num :=
  match canvasRef with
  | None => Returns []
  | Some canvas =>
      let centerX := (width canvas / $2)%js in
      let centerY := (height canvas / $2)%js in
      match scanData with
      | None => Throws (drawBackdrop canvas threshold)
      | Some points =>
          Returns (drawBackdrop canvas threshold
                   ++ flat_map (drawPoint centerX centerY threshold) points
                   ++ drawLegend)
      end
  end.

(** The JSX mounts the canvas only while no error is held, 800 by 800. *)
Definition canvasRef (s : ShellState num) : option (Canvas num) :=
  if truthy (error s) then None else Some (mkCanvas $800 $800)%js.

End Render.
End StaticRender.

(** ** The drawing effect of [lidar-viz.js] (repository root) and [part_001]

    Both draw the threshold as a full circle and the detection zone as two
    filled wedges, and place the points without classifying them.  The
    loop [for (let r = 50; r <= 300; r += 50)] runs over the six radii
    listed in [gridRadii]. *)

Module WedgeRender.
Section Render.
Context {num : Type} `{JSNumber num}.

Definition scale : num := $2%js.

Definition gridRadii : list num := [$50; $100; $150; $200; $250; $300]%js.

Definition drawThreshold (centerX centerY : num) (threshold : jsnum num) : list (Cmd num) :=
  [strokeStyle "#e74c3c";
   lineWidth $2%js;
   beginPath;
   arc centerX centerY (jsnum_mul threshold scale) $0%js ($2 * Math_PI)%js;
   stroke].

(** The body of [scanData.forEach(point => ...)]. *)
Definition drawPoint (centerX centerY : num) (point : Point num) : list (Cmd num) :=
  let px := (centerX + x point * scale)%js in
  let py := (centerY + y point * scale)%js in
  [beginPath;
   arc px py (Some $2%js) $0%js ($2 * Math_PI)%js;
   fill].

Definition drawWedge (centerX centerY : num) (threshold : jsnum num)
    (startAngle endAngle : num) : list (Cmd num) :=
  [beginPath;
   moveTo centerX centerY;
   arc centerX centerY (jsnum_mul threshold scale) startAngle endAngle;
   lineTo centerX centerY;
   fill].

Definition drawZone (centerX centerY : num) (threshold : jsnum num) : list (Cmd num) :=
  [fillStyle "rgba(46, 204, 113, 0.2)"]
  ++ drawWedge centerX centerY threshold (- Math_PI / $18)%js (Math_PI / $18)%js
  ++ drawWedge centerX centerY threshold
       (Math_PI - Math_PI / $18)%js (Math_PI + Math_PI / $18)%js.

(** Everything from the points on: the dots, then the zone. *)
Definition drawScan (centerX centerY : num) (threshold : jsnum num)
    (points : list (Point num)) : list (Cmd num) :=
  [fillStyle "#3498db"]
  ++ flat_map (drawPoint centerX centerY) points
  ++ drawZone centerX centerY threshold.

(** The grid style; [0.5] is written [1 / 2], which is exact. *)
Definition gridStyle : list (Cmd num) :=
  [strokeStyle "#2c3e50"; lineWidth ($1 / $2)%js].

End Render.
End WedgeRender.

Module RootViz.
Section Render.
Context {num : Type} `{JSNumber num}.

Definition drawCircle (centerX centerY r : num) : list (Cmd num) :=
  [beginPath;
   arc centerX centerY (Some (r * WedgeRender.scale)%js) $0%js ($2 * Math_PI)%js;
   stroke].

(** The second [useEffect] of [lidar-viz.js]: it returns at once when
    there is no canvas or when [scanData] is empty. *)
Definition render (canvasRef : option (Canvas num))
    (scanData : option (list (Point num))) (threshold : jsnum num) : Outcome num :=
  match canvasRef with
  | None => Returns []
  | Some canvas =>
      match scanData with
      | None => Throws []
      | Some [] => Returns []
      | Some points =>
          let centerX := (width canvas / $2)%js in
          let centerY := (height canvas / $2)%js in
          Returns ([clearRect $0%js $0%js (width canvas) (height canvas)]
                   ++ WedgeRender.gridStyle
                   ++ flat_map (drawCircle centerX centerY) WedgeRender.gridRadii
                   ++ WedgeRender.drawThreshold centerX centerY threshold
                   ++ WedgeRender.drawScan centerX centerY threshold points)
      end
  end.

(** The canvas of the JSX: always mounted, 600 by 600. *)
Definition canvasRef : option (Canvas num) := Some (mkCanvas $600 $600)%js.

End Render.
End RootViz.

Module Part001Render.
Section Render.
Context {num : Type} `{JSNumber num}.

(** The loop body of [part_001] also labels each circle. *)
Definition drawCircle (centerX centerY r : num) : list (Cmd num) :=
  [beginPath;
   arc centerX centerY (Some (r * WedgeRender.scale)%js) $0%js ($2 * Math_PI)%js;
   stroke;
   fillStyle "#2c3e50";
   font "12px Arial";
   fillText (TextCm r) (centerX + r * WedgeRender.scale)%js centerY].

Definition render (canvasRef : option (Canvas num))
    (scanData : option (list (Point num))) (threshold : jsnum num) : Outcome num :=
  match canvasRef with
  | None => Returns []
  | Some canvas =>
      let centerX := (width canvas / $2)%js in
      let centerY := (height canvas / $2)%js in
      let before :=
        [clearRect $0%js $0%js (width canvas) (height canvas)]
        ++ WedgeRender.gridStyle
        ++ flat_map (drawCircle centerX centerY) WedgeRender.gridRadii
        ++ WedgeRender.drawThreshold centerX centerY threshold
        ++ [fillStyle "#3498db"] in
      match scanData with
      | None => Throws before
      | Some points =>
          Returns ([clearRect $0%js $0%js (width canvas) (height canvas)]
                   ++ WedgeRender.gridStyle
                   ++ flat_map (drawCircle centerX centerY) WedgeRender.gridRadii
                   ++ WedgeRender.drawThreshold centerX centerY threshold
                   ++ WedgeRender.drawScan centerX centerY threshold points)
      end
  end.

Definition canvasRef : option (Canvas num) := Some (mkCanvas $600 $600)%js.

End Render.
End Part001Render.

(** ** Mounting, polling and unmounting

    The component runs on the browser's single-threaded event loop.  A
    world records the state cells, whether the component is mounted,
    whether the timer of [setInterval] is registered, the requests sent and
    not yet completed, the number of requests sent so far and every setter
    call made so far (oldest first).  React keeps the state of a mounted
    component only: a setter called after the unmount changes nothing. *)

Section EventLoop.
Context {num : Type} `{JSNumber num}.

Record World : Type := mkWorld {
  shell : ShellState num;
  mounted : bool;
  interval : bool;
  inflight : nat;
  issued : nat;
  calls : list (SetCall num)
}.

(** The synchronous part of a call of [fetchData]: it runs up to
    [await fetch('/lidar/data')], that is, it sends one request. *)
Definition call_fetchData (w : World) : World :=
  mkWorld (shell w) (mounted w) (interval w) (S (inflight w)) (S (issued w)) (calls w).

(** [setInterval(fetchData, 100)] and [clearInterval(interval)]. *)
Definition setInterval (w : World) : World :=
  mkWorld (shell w) (mounted w) true (inflight w) (issued w) (calls w).

Definition clearInterval (w : World) : World :=
  mkWorld (shell w) (mounted w) false (inflight w) (issued w) (calls w).

(** The rest of [fetchData], run when its request completes. *)
Definition resume (cs : list (SetCall num)) (w : World) : World :=
  mkWorld (if mounted w then apply_calls (shell w) cs else shell w)
          (mounted w) (interval w) (inflight w) (issued w) (calls w ++ cs).

(** A variant of the component: its initial state, the continuation of
    [fetchData] and the body of the first [useEffect]. *)
Record Component : Type := mkComponent {
  initial_state : ShellState num;
  on_response : Response num -> list (SetCall num);
  effect : World -> World
}.

(** [fetchData(); const interval = setInterval(fetchData, 100);] *)
Definition effect_fetch_then_poll (w : World) : World :=
  setInterval (call_fetchData w).

(** [const interval = setInterval(fetchData, 100);] *)
Definition effect_poll_only (w : World) : World :=
  setInterval w.

Definition static_component : Component :=
  mkComponent StaticViz.initial StaticViz.fetchData effect_fetch_then_poll.

Definition part000_component : Component :=
  mkComponent Part000.initial Part000.fetchData effect_poll_only.

Definition part001_component : Component :=
  mkComponent Part001.initial Part001.fetchData effect_poll_only.

Inductive Event : Type :=
| Mount
| Tick
| Complete (r : Response num)
| Unmount.

Definition is_Mount (e : Event) : bool :=
  match e with
  | Mount => true
  | _ => false
  end.

Definition before_mount (c : Component) : World :=
  mkWorld (initial_state c) false false 0 0 [].

(** One turn of the event loop.  [Unmount] runs the cleanup returned by
    the effect, [() => clearInterval(interval)]. *)
Definition step (c : Component) (w : World) (e : Event) : World :=
  match e with
  | Mount =>
      if mounted w then w
      else effect c (mkWorld (shell w) true (interval w) (inflight w) (issued w) (calls w))
  | Tick =>
      if interval w then call_fetchData w else w
  | Complete r =>
      match inflight w with
      | O => w
      | S n =>
          resume (on_response c r)
                 (mkWorld (shell w) (mounted w) (interval w) n (issued w) (calls w))
      end
  | Unmount =>
      clearInterval (mkWorld (shell w) false (interval w) (inflight w) (issued w) (calls w))
  end.

Definition run (c : Component) (w : World) (es : list Event) : World :=
  fold_left (step c) es w.

End EventLoop.

Arguments World : clear implicits.
Arguments Component : clear implicits.
Arguments Event : clear implicits.

(** ** The classification as the specification words it

    Section 4.1: a point is in the gate zone when its distance is less than
    the gate threshold, both in the canonical unit, and its bearing is
    below 10 or above 350 degrees. *)

Definition isInGateZone_spec {num} `{JSNumber num}
    (point : Point num) (gateThreshold : num) : bool :=
  (distance point <? gateThreshold)%js
  && ((angle point <? $10)%js || (angle point >? $350)%js).

(** The arc [static/lidar-viz.js] draws for a point, with the vertical
    axis reflected ([centerY - point.y * scale]), and the arc the wedge
    renderers draw, with the offset added ([centerY + point.y * scale]). *)
Definition static_dot {num} `{JSNumber num}
    (canvas : Canvas num) (point : Point num) : Cmd num :=
  arc (width canvas / $2 + x point * StaticRender.scale)%js
      (height canvas / $2 - y point * StaticRender.scale)%js
      (Some $2%js) $0%js ($2 * Math_PI)%js.


(** A failed fetch: the request was rejected, or the body carries a truthy
    [error] field. *)
Definition is_failure {num} (r : Response num) : bool :=
  match r with
  | Resolved data => truthy (data_error data)
  | Rejected _ => true
  end.

(** ** Sample inputs (binary64) *)

Definition sample_point (a d : float) : Point float := mkPoint 0%float 0%float a d.

Definition five_points : list (Point float) :=
  [mkPoint 50 0 0 50; mkPoint 0 60 90 60; mkPoint (-70) 0 180 70;
   mkPoint 0 (-80) 270 80; mkPoint 90 0 0 90]%float.

(** [{scan: [...5 points...], threshold: 1000}] *)
Definition payload_five : Payload float :=
  mkPayload None (Some five_points) (Some 1000%float).

(** [{error: "LIDAR not connected"}] *)
Definition payload_error : Payload float :=
  mkPayload (Some "LIDAR not connected"%string) None None.

(** A point at distance 138.32 and bearing 5, and the raw threshold 1383.2:
    in binary64, [138.32 * 10] is [1383.1999999999998] and [1383.2 / 10] is
    [138.32]. *)
Definition boundary_point : Point float := sample_point 5 138.32.

Definition boundary_threshold : float := 1383.2%float.

(** The integers [lo], [lo + 1], ... ([n] of them). *)
Fixpoint zrange (lo : Z) (n : nat) : list Z :=
  match n with
  | O => []
  | S k => lo :: zrange (lo + 1) k
  end.

(** The two ways of testing a distance against the gate: the test of the
    classification, [distance * 10 < threshold], and the comparison with
    the radius of the drawn arcs, [distance < threshold / 10]. *)
Definition boundary_tests_agree {num} `{JSNumber num} (d t : num) : bool :=
  Bool.eqb (d * $10 <? t)%js (d <? t / $10)%js.

(** ** Truthiness of numbers

    In [a || b] and [a ? b : c] a number counts as false when it is zero
    (of either sign) or [NaN]. *)

Class JSNumberTruth (num : Type) : Type := {
  num_truthy : num -> bool
}.

#[export] Instance float_truth : JSNumberTruth float := {
  num_truthy v := negb (PrimFloat.eqb v 0%float) && PrimFloat.eqb v v
}.

#[export] Instance exact_truth : JSNumberTruth Q := {
  num_truthy v := negb (Qeq_bool v 0%Q)
}.

(** [a || b] where [a] may be [undefined]. *)
Definition jsnum_or {num} `{JSNumberTruth num} (a : jsnum num) (b : num) : jsnum num :=
  match a with
  | Some v => if num_truthy v then Some v else Some b
  | None => Some b
  end.

(** [s === literal] for a string-valued field that may be missing. *)
Definition string_is (s : option string) (literal : string) : bool :=
  match s with
  | Some v => String.eqb v literal
  | None => false
  end.

(** ** Sequences of completed requests *)

(** The state cells after the requests of a variant have completed with
    the responses [rs], in this order. *)
Definition after_responses {num} (fetchData : Response num -> list (SetCall num))
    (s : ShellState num) (rs : list (Response num)) : ShellState num :=
  fold_left (fun held r => apply_calls held (fetchData r)) rs s.

(** ** The dots and their colours *)

(** The colours of the dots of a drawing pass: each [fillStyle] that is
    followed at once by [beginPath], an arc and [fill]. *)
Fixpoint dot_colours {num} (cmds : list (Cmd num)) : list string :=
  match cmds with
  | [] => []
  | c :: rest =>
      match c, rest with
      | fillStyle color, beginPath :: arc _ _ _ _ _ :: fill :: _ =>
          color :: dot_colours rest
      | _, _ => dot_colours rest
      end
  end.

(** ** The web-socket effect of [lidar-viz.js] (repository root) *)

Module RootSocket.
Section Socket.
Context {num : Type} `{JSNumber num} `{JSNumberTruth num}.

(** [data.content] of a custom message, [{type, content: {url}}]; the
    inner [content] may be missing, and so may its [url]. *)
Record Content : Type := mkContent {
  content_type : option string;
  content_content : option (option string)
}.

(** The object [JSON.parse(event.data)] returns, each field possibly
    missing. *)
Record Message : Type := mkMessage {
  data_type : option string;
  data_content : option Content;
  data_scan : option (list (Point num));
  data_threshold : jsnum num
}.

(** [event.data]: text that [JSON.parse] rejects (or parses to [null]),
    or the text of an object. *)
Inductive EventData : Type :=
| Unparseable
| Parsed (data : Message).

(** What the handler does: calls of the state setters and of
    [window.open] (with the url it was given). *)
Inductive Action : Type :=
| call (c : SetCall num)
| window_open (url : option string).

(** [useState([])], [useState(100)]; this variant holds no error. *)
Definition initial : ShellState num :=
  mkShell (Some []) (Some $100%js) None.

(** The condition [data.type === 'custom_message' &&
    data.content.type === 'open_lidar_viz']; [None] when reading
    [data.content.type] raises a [TypeError]. *)
Definition is_open_request (data : Message) : option bool :=
  if string_is (data_type data) "custom_message" then
    match data_content data with
    | None => None
    | Some content => Some (string_is (content_type content) "open_lidar_viz")
    end
  else Some false.

(** [messageHandler]; [window_socket] tells whether [window.socket]
    exists.  The result is [None] when the handler throws, which it does
    before any action. *)
Definition messageHandler (window_socket : bool) (event_data : EventData)
  : option (list Action) :=
  match event_data with
  | Unparseable => None
  | Parsed data =>
      match is_open_request data with
      | None => None
      | Some true =>
          if negb window_socket then
            match data_content data with
            | Some (mkContent _ (Some url)) => Some [window_open url]
            | _ => None
            end
          else Some []
      | Some false =>
          if string_is (data_type data) "lidar_scan" then
            Some [call (setScanData (scan_or_empty (data_scan data)));
                  call (setThreshold (jsnum_or (data_threshold data) $100%js))]
          else Some []
      end
  end.

(** The page: the state cells, whether the handler is registered on the
    socket, whether a socket made by the effect is open, the urls given to
    [window.open] and the setter calls made, oldest first. *)
Record World : Type := mkWorld {
  shell : ShellState num;
  listening : bool;
  own_socket_open : bool;
  opened : list (option string);
  calls : list (SetCall num)
}.

Definition before_mount : World := mkWorld initial false false [] [].

Definition perform (w : World) (a : Action) : World :=
  match a with
  | call c =>
      mkWorld (apply_call (shell w) c) (listening w) (own_socket_open w)
              (opened w) (calls w ++ [c])
  | window_open url =>
      mkWorld (shell w) (listening w) (own_socket_open w)
              (opened w ++ [url]) (calls w)
  end.

Inductive Event : Type :=
| Mount
| Receive (event_data : EventData)
| Unmount.

Definition is_Mount (e : Event) : bool :=
  match e with
  | Mount => true
  | _ => false
  end.

(** One turn of the event loop.  [Mount] runs the effect: it takes
    [window.socket] or makes a socket, and registers the handler.
    [Unmount] runs the cleanup: it removes the handler and closes the
    socket unless it is the shared one.  An exception of the handler ends
    the turn and changes nothing. *)
Definition step (window_socket : bool) (w : World) (e : Event) : World :=
  match e with
  | Mount =>
      mkWorld (shell w) true (negb window_socket) (opened w) (calls w)
  | Receive event_data =>
      if listening w then
        match messageHandler window_socket event_data with
        | Some actions => fold_left perform actions w
        | None => w
        end
      else w
  | Unmount =>
      mkWorld (shell w) false false (opened w) (calls w)
  end.

Definition run (window_socket : bool) (w : World) (es : list Event) : World :=
  fold_left (step window_socket) es w.

(** The held threshold is a number that counts as true, or the default
    [100]. *)
Definition usable_threshold (t : jsnum num) : Prop :=
  t = Some $100%js \/ exists v, t = Some v /\ num_truthy v = true.


End Socket.
End RootSocket.

(** ** The test component of [part_002] *)

Module Part002.
Section Test.
Context {num : Type} `{JSNumberTruth num}.

(** A parsed response body; an array or an object is kept as its text. *)
Inductive Json : Type :=
| JNull
| JBool (b : bool)
| JNumber (n : num)
| JString (s : string)
| JStructure (text : string).

(** Truthiness of a body in [data ? ... : ...]. *)
Definition json_truthy (j : Json) : bool :=
  match j with
  | JNull => false
  | JBool b => b
  | JNumber n => num_truthy n
  | JString s => negb (String.eqb s EmptyString)
  | JStructure _ => true
  end.

(** How the two [await]s of [fetchData] end. *)
Inductive Fetched : Type :=
| Body (jsonData : Json)
| Failed (err_message : string).

(** [useState(null)] twice. *)
Record State : Type := mkState {
  data : Json;
  error : option string
}.

Definition initial : State := mkState JNull None.

(** [fetchData] after its [await]s: [setData(jsonData); setError(null)],
    or [setError('Failed to fetch LIDAR data: ' + err.message)]. *)
Definition fetchData (s : State) (r : Fetched) : State :=
  match r with
  | Body jsonData => mkState jsonData None
  | Failed err_message =>
      mkState (data s) (Some ("Failed to fetch LIDAR data: " ++ err_message)%string)
  end.

(** What the component returns: the error block, the body printed by
    [JSON.stringify], or the loading line. *)
Inductive View : Type :=
| ErrorView (message : string)
| DataView (body : Json)
| LoadingView.

Definition view (s : State) : View :=
  if truthy (error s) then
    ErrorView (match error s with Some message => message | None => EmptyString end)
  else if json_truthy (data s) then DataView (data s)
  else LoadingView.

Definition after_fetches (s : State) (rs : list Fetched) : State :=
  fold_left fetchData rs s.

End Test.

Arguments Json : clear implicits.
Arguments Fetched : clear implicits.
Arguments State : clear implicits.
Arguments View : clear implicits.

End Part002.

(** ** Starting the page ([static/lidar-viz.js] and [part_002])

    The closing [try]/[catch] of both files.  [root] tells whether the
    document has an element with id [root]; [render_error] is the message
    of the exception [ReactDOM.render] raises, if it raises one. *)

Module Bootstrap.

(** The document, as far as the script looks at it: the ids of its
    elements.  An element is known by its id. *)
Definition Document : Type := list string.

(** What can be thrown: [new Error(message)] (also what
    [ReactDOM.render] may throw) and the [TypeError] of a property access
    on [null]. *)
Inductive Exception : Type :=
| Error (message : string)
| TypeError (message : string).

(** [err.message] *)
Definition message (err : Exception) : string :=
  match err with
  | Error m => m
  | TypeError m => m
  end.

Inductive Log : Type :=
| console_log (text : string)
| console_error (text : string) (err : Exception).

(** The markup of the [catch] block: its template with [err.message] in
    the place of [${err.message}]. *)
Inductive Html : Type :=
| failure_markup (err_message : string).

(** The page as the script changes it: what the console received, whether
    [ReactDOM.render] completed, and the assignments to [innerHTML], each
    with the element assigned to. *)
Record Page : Type := mkPage {
  console : list Log;
  rendered : bool;
  innerHTML : list (string * Html)
}.

Definition blank : Page := mkPage [] false [].

(** A piece of script: it changes the page and ends with a value or with
    an exception. *)
Definition Script (A : Type) : Type := Page -> Page * (A + Exception).

Definition ret {A : Type} (a : A) : Script A := fun p => (p, inl a).

Definition throw {A : Type} (err : Exception) : Script A := fun p => (p, inr err).

Definition bind {A B : Type} (m : Script A) (k : A -> Script B) : Script B :=
  fun p =>
    match m p with
    | (p', inl a) => k a p'
    | (p', inr err) => (p', inr err)
    end.

(** [try { body } catch (err) { handler }] *)
Definition try_catch {A : Type} (body : Script A) (handler : Exception -> Script A)
  : Script A :=
  fun p =>
    match body p with
    | (p', inl a) => (p', inl a)
    | (p', inr err) => handler err p'
    end.

Declare Scope script_scope.
Delimit Scope script_scope with script.
Notation "m ;; k" := (bind m (fun _ => k))
  (at level 61, right associativity) : script_scope.

Definition log (text : string) : Script unit :=
  fun p => (mkPage (console p ++ [console_log text]) (rendered p) (innerHTML p), inl tt).

Definition log_error (text : string) (err : Exception) : Script unit :=
  fun p => (mkPage (console p ++ [console_error text err]) (rendered p) (innerHTML p),
            inl tt).

(** [document.getElementById(id)]: the element, or [null]. *)
Definition getElementById (document : Document) (id : string) : option string :=
  find (String.eqb id) document.

(** [ReactDOM.render(<Component />, container)]; [outcome] is the
    exception it raises, if it raises one. *)
Definition ReactDOM_render (outcome : option Exception) (container : string)
  : Script unit :=
  match outcome with
  | Some err => throw err
  | None => fun p => (mkPage (console p) true (innerHTML p), inl tt)
  end.

(** [element.innerHTML = markup]; on [null] the assignment raises a
    [TypeError]. *)
Definition set_innerHTML (element : option string) (markup : Html) : Script unit :=
  match element with
  | Some id =>
      fun p => (mkPage (console p) (rendered p) (innerHTML p ++ [(id, markup)]), inl tt)
  | None => throw (TypeError "Cannot set properties of null (setting 'innerHTML')")
  end.

(** The closing [try]/[catch] of [static/lidar-viz.js] and [part_002]. *)
Definition initialize (document : Document) (render_outcome : option Exception)
  : Script unit :=
  try_catch
    (log "Initializing React component..." ;;
     match getElementById document "root" with
     | None => throw (Error "Root element not found!")
     | Some rootElement =>
         ReactDOM_render render_outcome rootElement ;;
         log "React component initialized"
     end)%script
    (fun err =>
       log_error "Failed to initialize React:" err ;;
       set_innerHTML (getElementById document "root") (failure_markup (message err)))%script.

End Bootstrap.

(** A point whose [angle] or [distance] field is missing reads
    [undefined] there, which is [NaN] in every comparison and product. *)
Definition lacks_angle_or_distance (point : Point float) : Prop :=
  angle point = nan \/ distance point = nan.

(** [n] timer ticks. *)
Definition ticks {num} (n : nat) : list (Event num) := repeat Tick n.

(** ** What the 2D context rejects (binary64)

    Of the calls the component makes, only [ctx.arc] can raise: it
    returns at once when one of its arguments is infinite or [NaN], and
    otherwise raises an [IndexSizeError] when the radius is negative. *)

Definition arc_raises (c : Cmd float) : bool :=
  match c with
  | arc cx cy (Some radius) startAngle endAngle =>
      PrimFloat.is_finite startAngle
      && (PrimFloat.is_finite endAngle
          && (PrimFloat.ltb radius 0%float
              && (PrimFloat.is_finite radius
                  && (PrimFloat.is_finite cx && PrimFloat.is_finite cy))))
  | _ => false
  end.

Definition context_raises (cmds : list (Cmd float)) : bool :=
  existsb arc_raises cmds.

(** The calls a pass really makes: the calls its code issues, up to and
    including the first one the context rejects. *)
Fixpoint performed (cmds : list (Cmd float)) : list (Cmd float) :=
  match cmds with
  | [] => []
  | c :: rest => if arc_raises c then [c] else c :: performed rest
  end.

(** A pass completes when the code of the component raises no
    [TypeError] and the context rejects none of its calls. *)
Definition completes (o : Outcome float) : bool :=
  negb (throws o) && negb (context_raises (drawn o)).


(** The comparison of a distance with a canonical gate threshold [g], and
    the test the classification makes when the raw threshold is
    [g * 10]. *)
Definition canonical_tests_agree {num} `{JSNumber num} (d g : num) : bool :=
  Bool.eqb (d * $10 <? g * $10)%js (d <? g)%js.

(** The largest binary64 number below 118.7, as a distance, at bearing 5;
    the raw threshold 1187 is [118.7 * 10], and [1187 / 10] is 118.7. *)
Definition near_gate_point : Point float := sample_point 5 0x1.dacccccccccccp+6.

(** [{scan: [...5 points...], threshold: 800}] *)
Definition payload_closer_gate : Payload float :=
  mkPayload None (Some five_points) (Some 800%float).

(** [{threshold: 500}] *)
Definition payload_without_scan : Payload float :=
  mkPayload None None (Some 500%float).

(** ** The [try] around the setter calls of [static/lidar-viz.js]

    The setter calls of [fetchData] stand inside its [try].  [raises c]
    tells whether the call [c] ends with an exception, which it does when
    the re-rendering it starts throws, and gives the message of the
    exception. *)




(** * Properties *)

(** ** The two number structures *)

(** The integer literals of the sources are the binary64 values of the
    same name. *)
Lemma float_literals :
  map float_of_Z [0; 2; 10; 18; 20; 40; 50; 100; 150; 200; 350; 800; 1000]%Z
  = [0; 2; 10; 18; 20; 40; 50; 100; 150; 200; 350; 800; 1000]%float.
Proof. reflexivity. Qed.

(** [Math.PI] is the binary64 number [7074237752028440 * 2^-51], and the
    exact structure uses that same rational number. *)
Lemma Math_PI_value :
  Prim2SF (Math_PI (num := float)) = S754_finite false 7074237752028440 (-51)
  /\ (Math_PI (num := Q) == 7074237752028440 # (2 ^ 51))%Q.
Proof. split; reflexivity. Qed.

(** ** Comparison of exact rationals *)

Lemma Qltb_lt (a b : Q) : Qltb a b = true <-> (a < b)%Q.
Proof.
  unfold Qltb. rewrite Qlt_alt.
  destruct (a ?= b)%Q; split; intro E; congruence.
Qed.

Lemma Qltb_iff_eq (a b c d : Q) :
  ((a < b)%Q <-> (c < d)%Q) -> Qltb a b = Qltb c d.
Proof.
  intro E.
  destruct (Qltb a b) eqn:Eab, (Qltb c d) eqn:Ecd; try reflexivity.
  - apply Qltb_lt, E, Qltb_lt in Eab. congruence.
  - apply Qltb_lt, E, Qltb_lt in Ecd. congruence.
Qed.

(** Scaling both sides by ten, and dividing the right side by ten, do not
    move a strict comparison when nothing is rounded. *)
Lemma exact_times_ten (d g : Q) :
  ((d * inject_Z 10 < g * inject_Z 10)%Q <-> (d < g)%Q).
Proof. apply Qmult_lt_r. reflexivity. Qed.

Lemma exact_div_ten (d t : Q) :
  ((d * inject_Z 10 < t)%Q <-> (d < t / inject_Z 10)%Q).
Proof.
  split; intro E.
  - apply Qlt_shift_div_l; [reflexivity | exact E].
  - apply (Qmult_lt_r _ _ (inject_Z 10)) in E; [| reflexivity].
    assert (R : (t / inject_Z 10 * inject_Z 10 == t)%Q) by (field; discriminate).
    rewrite R in E. exact E.
Qed.

(** ** Gate classification *)

Section Classification.
Context {num : Type} `{JSNumber num}.

Lemma isInGateArea_true (point : Point num) (threshold : num) :
  StaticRender.isInGateArea point (Some threshold) = true <->
  (distance point * $10 <? threshold)%js = true
  /\ ((angle point <? $10)%js = true \/ (angle point >? $350)%js = true).
Proof.
  unfold StaticRender.isInGateArea, jsnum_lt_r.
  rewrite andb_true_iff, orb_true_iff. tauto.
Qed.


End Classification.

Lemma isInGateArea_exact (point : Point Q) (gateThreshold : Q) :
  StaticRender.isInGateArea point (Some (gateThreshold * $10)%js) = true <->
  (distance point < gateThreshold)%Q
  /\ ((angle point < inject_Z 10)%Q \/ (inject_Z 350 < angle point)%Q).
Proof.
  rewrite isInGateArea_true. unfold num_gt. cbn [num_lt num_mul num_lit exact_number].
  rewrite !Qltb_lt, exact_times_ten. tauto.
Qed.

(** ** The fetch effect *)

Section FetchProperties.
Context {num : Type} `{JSNumber num}.

(** The state after one completed request, variant by variant. *)
Lemma static_fetch_state (s : ShellState num) (r : Response num) :
  apply_calls s (StaticViz.fetchData r) =
  match r with
  | Resolved data =>
      if truthy (data_error data)
      then mkShell (scanData s) (threshold s) (data_error data)
      else mkShell (data_scan data) (data_threshold data) (error s)
  | Rejected m =>
      mkShell (scanData s) (threshold s)
              (Some ("Failed to fetch LIDAR data: " ++ m)%string)
  end.
Proof.
  destruct r as [data | m]; cbn; [destruct (truthy (data_error data)) |]; reflexivity.
Qed.

Lemma part000_fetch_state (s : ShellState num) (r : Response num) :
  apply_calls s (Part000.fetchData r) =
  match r with
  | Resolved data =>
      if truthy (data_error data)
      then mkShell (scanData s) (threshold s) (data_error data)
      else mkShell (scan_or_empty (data_scan data))
                   (jsnum_div (data_threshold data) $10%js) None
  | Rejected _ =>
      mkShell (scanData s) (threshold s) (Some "Failed to fetch LIDAR data"%string)
  end.
Proof.
  destruct r as [data | m]; cbn; [destruct (truthy (data_error data)) |]; reflexivity.
Qed.

Lemma part001_fetch_state (s : ShellState num) (r : Response num) :
  apply_calls s (Part001.fetchData r) =
  match r with
  | Resolved data =>
      mkShell (scan_or_empty (data_scan data))
              (jsnum_div (data_threshold data) $10%js)
              (if truthy (data_error data) then data_error data else None)
  | Rejected _ =>
      mkShell (scanData s) (threshold s) (Some "Failed to fetch LIDAR data"%string)
  end.
Proof.
  destruct r as [data | m]; cbn; [destruct (truthy (data_error data)) |]; reflexivity.
Qed.

Lemma truthy_message (e : option string) :
  truthy e = true -> exists m, e = Some m.
Proof. destruct e as [m |]; [eauto | discriminate]. Qed.

(** In [static/lidar-viz.js] and in [part_000] a failed fetch touches
    neither the points nor the threshold. *)
Lemma static_failure_frame (s : ShellState num) (r : Response num) :
  is_failure r = true ->
  scanData (apply_calls s (StaticViz.fetchData r)) = scanData s
  /\ threshold (apply_calls s (StaticViz.fetchData r)) = threshold s.
Proof.
  rewrite static_fetch_state. destruct r as [data | m]; cbn [is_failure].
  - intros ->. split; reflexivity.
  - intros _. split; reflexivity.
Qed.

Lemma part000_failure_frame (s : ShellState num) (r : Response num) :
  is_failure r = true ->
  scanData (apply_calls s (Part000.fetchData r)) = scanData s
  /\ threshold (apply_calls s (Part000.fetchData r)) = threshold s.
Proof.
  rewrite part000_fetch_state. destruct r as [data | m]; cbn [is_failure].
  - intros ->. split; reflexivity.
  - intros _. split; reflexivity.
Qed.

(** In [part_000] every completed request delivers exactly one of the two
    outcomes. *)
Lemma part000_one_outcome (r : Response num) :
  xorb (delivers_snapshot (Part000.fetchData r))
       (delivers_error (Part000.fetchData r)) = true.
Proof.
  destruct r as [data | m]; [| reflexivity].
  cbn. destruct (truthy (data_error data)) eqn:E; [| reflexivity].
  destruct (truthy_message _ E) as [m ->]. reflexivity.
Qed.

(** The held error after a completed request: a failure replaces it in
    every variant; a success clears it in [part_000] and [part_001]. *)
Lemma part000_error_after (s : ShellState num) (r : Response num) :
  error (apply_calls s (Part000.fetchData r)) =
  match r with
  | Resolved data => if truthy (data_error data) then data_error data else None
  | Rejected _ => Some "Failed to fetch LIDAR data"%string
  end.
Proof.
  rewrite part000_fetch_state.
  destruct r as [data | m]; [destruct (truthy (data_error data)) |]; reflexivity.
Qed.

Lemma static_error_after (s : ShellState num) (r : Response num) :
  error (apply_calls s (StaticViz.fetchData r)) =
  match r with
  | Resolved data => if truthy (data_error data) then data_error data else error s
  | Rejected m => Some ("Failed to fetch LIDAR data: " ++ m)%string
  end.
Proof.
  rewrite static_fetch_state.
  destruct r as [data | m]; [destruct (truthy (data_error data)) |]; reflexivity.
Qed.

End FetchProperties.

(** X1.  In [static/lidar-viz.js] and in [part_000] a failed fetch, be it
    a rejected request or a payload with an [error] field, leaves the held
    points and the held threshold as they were. *)
Theorem failed_fetch_keeps_points :
  forall (num : Type) (N : JSNumber num) (s : ShellState num) (r : Response num),
    is_failure r = true ->
    scanData (apply_calls s (StaticViz.fetchData r)) = scanData s
    /\ threshold (apply_calls s (StaticViz.fetchData r)) = threshold s
    /\ scanData (apply_calls s (Part000.fetchData r)) = scanData s
    /\ threshold (apply_calls s (Part000.fetchData r)) = threshold s.
Proof.
  intros num N s r Hr.
  destruct (static_failure_frame s r Hr) as [E1 E2].
  destruct (part000_failure_frame s r Hr) as [E3 E4].
  auto.
Qed.

Lemma failed_fetch_keeps_points_witness :
  let held := apply_calls StaticViz.initial (StaticViz.fetchData (Resolved payload_five)) in
  let r := Resolved payload_error in
  scanData (apply_calls held (StaticViz.fetchData r)) = scanData held
  /\ threshold (apply_calls held (StaticViz.fetchData r)) = threshold held
  /\ scanData (apply_calls held (Part000.fetchData r)) = scanData held
  /\ threshold (apply_calls held (Part000.fetchData r)) = threshold held.
Proof.
  exact (failed_fetch_keeps_points float _
           (apply_calls StaticViz.initial (StaticViz.fetchData (Resolved payload_five)))
           (Resolved payload_error) eq_refl).
Defined.

(** X3.  In [part_000] the error held after a completed request depends
    on that request alone: a failure stores its message, whatever was held
    before, and a success clears the error. *)
Theorem part000_last_error_wins :
  forall (num : Type) (N : JSNumber num) (s : ShellState num) (r : Response num),
    error (apply_calls s (Part000.fetchData r)) =
    match r with
    | Resolved data => if truthy (data_error data) then data_error data else None
    | Rejected _ => Some "Failed to fetch LIDAR data"%string
    end.
Proof. intros num N s r. apply part000_error_after. Qed.

(** C4.  In [part_001] the two state updates follow the [if]/[else], so an
    application-level error payload overwrites the held points: after a
    successful fetch delivering five points, the failed fetch
    [{error: "LIDAR not connected"}] leaves an empty point set (and an
    undefined threshold), not the five points. *)
Theorem part001_error_payload_blanks_points :
  let held := apply_calls Part001.initial (Part001.fetchData (Resolved payload_five)) in
  let after := apply_calls held (Part001.fetchData (Resolved payload_error)) in
  scanData held = Some five_points
  /\ is_failure (Resolved payload_error) = true
  /\ scanData after = Some []
  /\ threshold after = None
  /\ error after = Some "LIDAR not connected"%string.
Proof. repeat split; reflexivity. Qed.

(** C5.  In [part_001] the request that completes with the error payload
    [{error: "LIDAR not connected"}] delivers both outcomes: it sets the
    error message and it also sets the scan data and the threshold. *)
Theorem part001_error_payload_delivers_both :
  Part001.fetchData (Resolved payload_error) =
    [setError (Some "LIDAR not connected"%string); setScanData (Some []); setThreshold None]
  /\ delivers_error (Part001.fetchData (Resolved payload_error)) = true
  /\ delivers_snapshot (Part001.fetchData (Resolved payload_error)) = true.
Proof. repeat split; reflexivity. Qed.

(** C6.  In [static/lidar-viz.js] nothing ever calls [setError(null)]: once
    an error is held, a successful fetch stores the new points and leaves
    the error message in place (and with it the canvas unmounted). *)
Theorem static_success_keeps_error :
  let failed := apply_calls StaticViz.initial (StaticViz.fetchData (Resolved payload_error)) in
  let after := apply_calls failed (StaticViz.fetchData (Resolved payload_five)) in
  error failed = Some "LIDAR not connected"%string
  /\ is_failure (Resolved payload_five) = false
  /\ scanData after = Some five_points
  /\ error after = Some "LIDAR not connected"%string
  /\ StaticRender.canvasRef after = None.
Proof. repeat split; reflexivity. Qed.

(** ** Units *)

Lemma spec_zone_exact (point : Point Q) (threshold : Q) :
  isInGateZone_spec point (threshold / $10)%js =
  StaticRender.isInGateArea point (Some threshold).
Proof.
  unfold isInGateZone_spec, StaticRender.isInGateArea, jsnum_lt_r.
  rewrite andb_comm. f_equal.
  cbn [num_lt num_mul num_div num_lit exact_number].
  apply Qltb_iff_eq. symmetry. apply exact_div_ten.
Qed.

Lemma In_gate_arc {num} `{JSNumber num} (canvas : Canvas num)
    (points : list (Point num)) (threshold : jsnum num) :
  In (arc (width canvas / $2)%js (height canvas / $2)%js
          (jsnum_mul (jsnum_div threshold $10%js) StaticRender.scale)
          (- Math_PI / $18)%js (Math_PI / $18)%js)
     (drawn (StaticRender.render (Some canvas) (Some points) threshold)).
Proof.
  cbn [StaticRender.render drawn]. unfold StaticRender.drawBackdrop.
  apply in_or_app. left. apply in_or_app. right. apply in_or_app. right.
  unfold StaticRender.drawGate, StaticRender.gateRadius. cbn. tauto.
Qed.

(** C2, counterexample.  [static/lidar-viz.js] hands the
    raw threshold on: after the payload with threshold 1000 the held
    threshold is 1000, not 100.  And in binary64 the classification against
    the normalized threshold differs from the classification of the raw
    values: for the point at distance 138.32, bearing 5, and the raw
    threshold 1383.2 the first is false and the second true. *)
Lemma static_hands_raw_threshold_on :
  threshold (apply_calls StaticViz.initial (StaticViz.fetchData (Resolved payload_five)))
    = Some 1000%float
  /\ PrimFloat.eqb 1000 100 = false
  /\ isInGateZone_spec boundary_point (boundary_threshold / $10)%js = false
  /\ StaticRender.isInGateArea boundary_point (Some boundary_threshold) = true.
Proof. repeat split; reflexivity. Qed.

(** C2, amended.  [part_000] (as [part_001] and [part_004]) divides the raw
    threshold of a successful payload by 10 before storing it, so that 1000
    becomes 100; [static/lidar-viz.js] stores it unchanged and converts
    when drawing, the gate arcs being drawn at [threshold / 10] times the
    scale.  In exact arithmetic, classifying a point against the normalized
    threshold gives the same boolean as the classification of the raw
    values, for every point and raw threshold. *)
Theorem threshold_normalization :
  (forall (num : Type) (N : JSNumber num) (s : ShellState num) (data : Payload num),
      threshold (apply_calls s (Part000.fetchData (Resolved data))) =
        (if truthy (data_error data) then threshold s
         else jsnum_div (data_threshold data) $10%js)
      /\ threshold (apply_calls s (Part001.fetchData (Resolved data))) =
           jsnum_div (data_threshold data) $10%js
      /\ threshold (apply_calls s (StaticViz.fetchData (Resolved data))) =
           (if truthy (data_error data) then threshold s else data_threshold data))
  /\ threshold (apply_calls Part000.initial (Part000.fetchData (Resolved payload_five)))
       = Some 100%float
  /\ (forall (num : Type) (N : JSNumber num) (canvas : Canvas num)
        (points : list (Point num)) (threshold : jsnum num),
      In (arc (width canvas / $2)%js (height canvas / $2)%js
              (jsnum_mul (jsnum_div threshold $10%js) StaticRender.scale)
              (- Math_PI / $18)%js (Math_PI / $18)%js)
         (drawn (StaticRender.render (Some canvas) (Some points) threshold)))
  /\ (forall (point : Point Q) (threshold : Q),
      isInGateZone_spec point (threshold / $10)%js =
      StaticRender.isInGateArea point (Some threshold)).
Proof.
  split.
  { intros num N s data.
    rewrite part000_fetch_state, part001_fetch_state, static_fetch_state.
    destruct (truthy (data_error data)); repeat split; reflexivity. }
  split; [reflexivity |].
  split; [intros; apply In_gate_arc |].
  apply spec_zone_exact.
Qed.

(** ** The colour boundary and the drawn arc *)

Lemma forallb_Forall {A : Type} (f : A -> bool) (l : list A) :
  forallb f l = true -> Forall (fun a => f a = true) l.
Proof.
  intro E. apply Forall_forall. intros a Ha.
  exact (proj1 (forallb_forall f l) E a Ha).
Qed.

Lemma forallb2_Forall {A B : Type} (f : A -> B -> bool) (la : list A) (lb : list B) :
  forallb (fun a => forallb (f a) lb) la = true ->
  Forall (fun a => Forall (fun b => f a b = true) lb) la.
Proof.
  intro E. apply Forall_forall. intros a Ha. apply forallb_Forall.
  exact (proj1 (forallb_forall _ la) E a Ha).
Qed.

Lemma boundary_tests_agree_exact (d t : Q) : boundary_tests_agree d t = true.
Proof.
  unfold boundary_tests_agree. cbn [num_lt num_mul num_div num_lit exact_number].
  rewrite (Qltb_iff_eq _ _ _ _ (exact_div_ten d t)). apply eqb_reflx.
Qed.

(** In binary64 the two tests agree on every whole number of centimetres
    up to 400 against every whole raw threshold up to 4000. *)
Lemma boundary_tests_agree_grid :
  Forall (fun d : Z =>
            Forall (fun t : Z =>
                      boundary_tests_agree (float_of_Z d) (float_of_Z t) = true)
                   (zrange 0 4001))
         (zrange 0 401).
Proof.
  apply (forallb2_Forall (fun d t => boundary_tests_agree (float_of_Z d) (float_of_Z t))).
  vm_compute. reflexivity.
Qed.

(** C10, counterexample.  With the raw threshold 1383.2 the
    gate arcs are drawn at the canonical radius 138.32; the point at
    distance 138.32 and bearing 5 lies on the arc, not inside it, yet its
    test [distance * 10 < threshold] holds and it is drawn in the in-zone
    colour. *)
Lemma boundary_point_coloured_on_arc :
  StaticRender.gateRadius (Some boundary_threshold) = Some 138.32%float
  /\ (distance boundary_point <? 138.32%float)%js = false
  /\ (distance boundary_point * $10 <? boundary_threshold)%js = true
  /\ boundary_tests_agree (distance boundary_point) boundary_threshold = false
  /\ hd_error (StaticRender.drawPoint 400%float 400%float (Some boundary_threshold) boundary_point)
     = Some (fillStyle "#dc3545").
Proof. repeat split; reflexivity. Qed.

(** C10, amended.  In the render pass the classification tests
    [point.distance * 10 < threshold] and the gate arcs are drawn at the
    canonical radius [threshold / 10].  In exact arithmetic the test holds
    exactly when the distance is strictly less than that radius, for every
    point and threshold; in binary64 the two agree for every whole distance
    up to 400 and whole threshold up to 4000, and can differ elsewhere by
    the rounding of the product and of the quotient. *)
Theorem colour_boundary_at_arc_radius :
  (forall (point : Point Q) (threshold : Q),
      (distance point * $10 <? threshold)%js =
      match StaticRender.gateRadius (Some threshold) with
      | Some radius => (distance point <? radius)%js
      | None => false
      end)
  /\ (forall (point : Point Q) (threshold : Q),
      StaticRender.isInGateArea point (Some threshold) =
      ((angle point <? $10)%js || (angle point >? $350)%js)
      && (distance point <? threshold / $10)%js)
  /\ Forall (fun d : Z =>
               Forall (fun t : Z =>
                         boundary_tests_agree (float_of_Z d) (float_of_Z t) = true)
                      (zrange 0 4001))
            (zrange 0 401).
Proof.
  assert (E : forall d t : Q, (d * $10 <? t)%js = (d <? t / $10)%js).
  { intros d t. apply eqb_prop. exact (boundary_tests_agree_exact d t). }
  split; [| split].
  - intros point threshold. cbn [StaticRender.gateRadius jsnum_div option_map]. apply E.
  - intros point threshold. unfold StaticRender.isInGateArea, jsnum_lt_r.
    rewrite E. reflexivity.
  - exact boundary_tests_agree_grid.
Qed.

(** ** Mounting and unmounting *)

Section EventLoopProperties.
Context {num : Type} `{JSNumber num}.
Variable c : Component num.

(** Once the timer is cleared and the component unmounted, a turn that is
    not a mount sends no request and changes no state. *)
Lemma step_after_cleanup (w : World num) (e : Event num) :
  interval w = false -> mounted w = false -> is_Mount e = false ->
  interval (step c w e) = false
  /\ mounted (step c w e) = false
  /\ issued (step c w e) = issued w
  /\ shell (step c w e) = shell w.
Proof.
  intros Hi Hm He. destruct e as [| | r |]; cbn [step].
  - discriminate He.
  - rewrite Hi. auto.
  - destruct (inflight w) as [| n]; [auto |].
    cbn. rewrite Hm. auto.
  - cbn. auto.
Qed.

Lemma run_after_cleanup (es : list (Event num)) (w : World num) :
  interval w = false -> mounted w = false ->
  forallb (fun e => negb (is_Mount e)) es = true ->
  interval (run c w es) = false
  /\ mounted (run c w es) = false
  /\ issued (run c w es) = issued w
  /\ shell (run c w es) = shell w.
Proof.
  revert w. induction es as [| e es IH]; intros w Hi Hm Hes; cbn.
  - auto.
  - cbn in Hes. apply andb_true_iff in Hes. destruct Hes as [He Hes].
    apply negb_true_iff in He.
    destruct (step_after_cleanup w e Hi Hm He) as (Hi' & Hm' & Hn' & Hs').
    destruct (IH (step c w e) Hi' Hm' Hes) as (Hi2 & Hm2 & Hn2 & Hs2).
    unfold run in *. rewrite Hn2, Hs2, Hn', Hs'. auto.
Qed.

Lemma run_snoc (w : World num) (es : list (Event num)) (e : Event num) :
  run c w (es ++ [e]) = step c (run c w es) e.
Proof. unfold run. rewrite fold_left_app. reflexivity. Qed.

(** The continuation of an outstanding request runs whenever the request
    completes, mounted or not. *)
Lemma complete_calls (w : World num) (r : Response num) :
  calls (step c w (Complete r)) =
  calls w ++ match inflight w with
             | O => []
             | S _ => on_response c r
             end.
Proof.
  cbn [step]. destruct (inflight w); cbn; [rewrite app_nil_r |]; reflexivity.
Qed.

End EventLoopProperties.

(** C3, counterexample.  [static/lidar-viz.js] is mounted,
    which sends a request, and unmounted while the request is in flight;
    when the request then completes, the continuation of [fetchData] still
    calls [setScanData] and [setThreshold] (or [setError] when it fails). *)
Lemma inflight_request_completes_after_stop :
  let stopped :=
    run static_component (before_mount static_component) [Mount; Unmount] in
  inflight stopped = 1%nat
  /\ calls stopped = []
  /\ calls (step static_component stopped (Complete (Resolved payload_five)))
     = [setScanData (Some five_points); setThreshold (Some 1000%float)]
  /\ calls (step static_component stopped (Complete (Rejected "NetworkError")))
     = [setError (Some "Failed to fetch LIDAR data: NetworkError"%string)].
Proof. repeat split; reflexivity. Qed.

(** C3, amended.  The teardown only clears the timer.  After it, as long
    as the component is not mounted again, no further request is sent and
    the held display state no longer changes (React drops the updates of
    an unmounted component); but there is no cancellation of a request in
    flight: when it completes, the continuation of [fetchData] runs and
    calls the state setters as before. *)
Theorem teardown_stops_polling :
  forall (num : Type) (N : JSNumber num) (c : Component num)
         (pre post : list (Event num)),
    forallb (fun e => negb (is_Mount e)) post = true ->
    let stopped := run c (before_mount c) (pre ++ [Unmount]) in
    let later := run c stopped post in
    issued later = issued stopped
    /\ shell later = shell stopped
    /\ interval later = false
    /\ forall r : Response num,
        calls (step c later (Complete r)) =
        calls later ++ match inflight later with
                       | O => []
                       | S _ => on_response c r
                       end.
Proof.
  intros num N c pre post Hpost stopped later.
  assert (Hi : interval stopped = false) by (unfold stopped; rewrite run_snoc; reflexivity).
  assert (Hm : mounted stopped = false) by (unfold stopped; rewrite run_snoc; reflexivity).
  destruct (run_after_cleanup c post stopped Hi Hm Hpost) as (Hi' & _ & Hn & Hs).
  repeat split; try assumption.
  intro r. apply complete_calls.
Qed.

Lemma teardown_stops_polling_witness :
  let c := @static_component float _ in
  let stopped := run c (before_mount c) ([Mount] ++ [Unmount]) in
  let later := run c stopped [Tick; Complete (Resolved payload_five)] in
  issued later = issued stopped
  /\ shell later = shell stopped
  /\ interval later = false
  /\ forall r : Response float,
      calls (step c later (Complete r)) =
      calls later ++ match inflight later with
                     | O => []
                     | S _ => on_response c r
                     end.
Proof.
  exact (teardown_stops_polling float _ static_component [Mount]
           [Tick; Complete (Resolved payload_five)] eq_refl).
Defined.

(** C7.  The effect of [part_000] (as of [part_001] and [part_004]) only
    registers the timer, where [static/lidar-viz.js] first calls
    [fetchData()]: mounting sends no request, and the first request leaves
    at the first tick, one interval later. *)
Theorem part000_mount_sends_no_request :
  let mounted_world :=
    step (@part000_component float _) (before_mount part000_component) Mount in
  issued mounted_world = 0%nat
  /\ inflight mounted_world = 0%nat
  /\ interval mounted_world = true
  /\ issued (step part000_component mounted_world Tick) = 1%nat.
Proof. repeat split; reflexivity. Qed.

(** X4.  In [static/lidar-viz.js] (and [part_003]) the effect calls
    [fetchData()] before registering the timer, so the first request is
    sent on mount; in [part_000], [part_001] and [part_004] the effect
    only registers the timer, so the first request is sent at the first
    tick, one interval after the mount. *)
Theorem first_request :
  forall (num : Type) (N : JSNumber num),
    issued (step static_component (before_mount static_component) Mount) = 1%nat
    /\ issued (step part000_component (before_mount part000_component) Mount) = 0%nat
    /\ issued (run part000_component (before_mount part000_component) [Mount; Tick]) = 1%nat
    /\ issued (step part001_component (before_mount part001_component) Mount) = 0%nat
    /\ issued (run part001_component (before_mount part001_component) [Mount; Tick]) = 1%nat.
Proof. intros num N. repeat split; reflexivity. Qed.

(** ** The drawing effect *)

Section RenderProperties.
Context {num : Type} `{JSNumber num}.

Lemma filled_arcs_static_points (canvas : Canvas num) (threshold : jsnum num)
    (points : list (Point num)) (rest : list (Cmd num)) :
  filled_arcs
    (flat_map (StaticRender.drawPoint (width canvas / $2)%js (height canvas / $2)%js
                                      threshold) points ++ rest)
  = map (static_dot canvas) points ++ filled_arcs rest.
Proof.
  induction points as [| point points IH]; [reflexivity |].
  cbn [flat_map map app StaticRender.drawPoint filled_arcs].
  rewrite IH. reflexivity.
Qed.


Lemma filled_arcs_static_backdrop (canvas : Canvas num) (threshold : jsnum num)
    (rest : list (Cmd num)) :
  filled_arcs (StaticRender.drawBackdrop canvas threshold ++ rest) = filled_arcs rest.
Proof. reflexivity. Qed.


Lemma static_render_dots (canvas : Canvas num) (threshold : jsnum num)
    (points : list (Point num)) :
  filled_arcs (drawn (StaticRender.render (Some canvas) (Some points) threshold))
  = map (static_dot canvas) points.
Proof.
  cbn [StaticRender.render drawn].
  rewrite filled_arcs_static_backdrop, filled_arcs_static_points.
  cbn. apply app_nil_r.
Qed.



End RenderProperties.

(** C8.  On the 600 by 600 canvas of [lidar-viz.js] the point with offsets
    [x = 0], [y = 10] is drawn at [(300, 320)], that is at
    [centerY + y * scale], where the reflected position, the one
    [static/lidar-viz.js] uses, is [(300, 280)]; [part_001] does the same
    as [lidar-viz.js]. *)
Theorem wedge_render_adds_y_offset :
  let point := mkPoint 0%float 10%float 90%float 10%float in
  filled_arcs (drawn (RootViz.render RootViz.canvasRef (Some [point]) (Some 100%float)))
    = [arc 300%float 320%float (Some 2%float) 0%float 0x1.921fb54442d18p+2%float]
  /\ filled_arcs (drawn (Part001Render.render Part001Render.canvasRef (Some [point])
                                              (Some 100%float)))
    = [arc 300%float 320%float (Some 2%float) 0%float 0x1.921fb54442d18p+2%float]
  /\ static_dot (mkCanvas 600%float 600%float) point
    = arc 300%float 280%float (Some 2%float) 0%float 0x1.921fb54442d18p+2%float.
Proof. repeat split; reflexivity. Qed.



(** ** Sequences of responses *)

Section ResponseSequences.
Context {num : Type} `{JSNumber num}.

Lemma after_responses_snoc (fetchData : Response num -> list (SetCall num))
    (s : ShellState num) (rs : list (Response num)) (r : Response num) :
  after_responses fetchData s (rs ++ [r])
  = apply_calls (after_responses fetchData s rs) (fetchData r).
Proof. unfold after_responses. rewrite fold_left_app. reflexivity. Qed.

Lemma truthy_failed_message (m : string) :
  truthy (Some ("Failed to fetch LIDAR data: " ++ m)%string) = true.
Proof. reflexivity. Qed.

Lemma static_error_stays (s : ShellState num) (r : Response num) :
  truthy (error s) = true ->
  truthy (error (apply_calls s (StaticViz.fetchData r))) = true.
Proof.
  intro Hs. rewrite static_error_after. destruct r as [data | m].
  - destruct (truthy (data_error data)) eqn:E; assumption.
  - apply truthy_failed_message.
Qed.

Lemma static_error_stays_for_good (rs : list (Response num)) (s : ShellState num) :
  truthy (error s) = true ->
  truthy (error (after_responses StaticViz.fetchData s rs)) = true.
Proof.
  revert s. induction rs as [| r rs IH]; intros s Hs; [exact Hs |].
  cbn. apply IH. apply static_error_stays. exact Hs.
Qed.

(** Whether the held scan data is an array. *)
Lemma part000_keeps_array (rs : list (Response num)) (s : ShellState num) :
  scanData s <> None ->
  scanData (after_responses Part000.fetchData s rs) <> None.
Proof.
  revert s. induction rs as [| r rs IH]; intros s Hs; [exact Hs |].
  cbn. apply IH. rewrite part000_fetch_state.
  destruct r as [data | m]; [destruct (truthy (data_error data)) |]; cbn; try assumption.
  destruct (data_scan data); discriminate.
Qed.

Lemma part001_keeps_array (rs : list (Response num)) (s : ShellState num) :
  scanData s <> None ->
  scanData (after_responses Part001.fetchData s rs) <> None.
Proof.
  revert s. induction rs as [| r rs IH]; intros s Hs; [exact Hs |].
  cbn. apply IH. rewrite part001_fetch_state.
  destruct r as [data | m]; cbn; try assumption.
  destruct (data_scan data); discriminate.
Qed.

Lemma not_None_Some {A : Type} (o : option A) : o <> None -> exists a, o = Some a.
Proof. destruct o as [a |]; [eauto | congruence]. Qed.

End ResponseSequences.

(** X6.  In [static/lidar-viz.js] an error, once held, is held for good:
    whatever responses complete afterwards, successful or not, an error
    message stays in the state, the canvas stays unmounted and the drawing
    effect draws nothing. *)
Theorem static_error_is_permanent :
  forall (num : Type) (N : JSNumber num) (s : ShellState num)
         (rs : list (Response num)),
    truthy (error s) = true ->
    let later := after_responses StaticViz.fetchData s rs in
    truthy (error later) = true
    /\ StaticRender.canvasRef later = None
    /\ StaticRender.render (StaticRender.canvasRef later) (scanData later)
                           (threshold later) = Returns [].
Proof.
  intros num N s rs Hs later.
  assert (E : truthy (error later) = true) by (apply static_error_stays_for_good; exact Hs).
  unfold StaticRender.canvasRef. rewrite E. repeat split; reflexivity.
Qed.

Lemma static_error_is_permanent_witness :
  let s := apply_calls StaticViz.initial (StaticViz.fetchData (Resolved payload_error)) in
  let later :=
    after_responses StaticViz.fetchData s [Resolved payload_five; Resolved payload_five] in
  truthy (error later) = true
  /\ StaticRender.canvasRef later = None
  /\ StaticRender.render (StaticRender.canvasRef later) (scanData later)
                         (threshold later) = Returns [].
Proof.
  exact (static_error_is_permanent float _
           (apply_calls StaticViz.initial (StaticViz.fetchData (Resolved payload_error)))
           [Resolved payload_five; Resolved payload_five] eq_refl).
Defined.

(** X9.  A successful response supersedes what was held: in [part_000]
    and [part_001] the whole state after it, and in [static/lidar-viz.js]
    the held points and threshold, are the same whatever the state before,
    so of two responses the one that arrives last decides the display. *)
Theorem latest_snapshot_wins :
  forall (num : Type) (N : JSNumber num) (s s' : ShellState num) (r : Response num),
    is_failure r = false ->
    apply_calls s (Part000.fetchData r) = apply_calls s' (Part000.fetchData r)
    /\ apply_calls s (Part001.fetchData r) = apply_calls s' (Part001.fetchData r)
    /\ scanData (apply_calls s (StaticViz.fetchData r))
       = scanData (apply_calls s' (StaticViz.fetchData r))
    /\ threshold (apply_calls s (StaticViz.fetchData r))
       = threshold (apply_calls s' (StaticViz.fetchData r)).
Proof.
  intros num N s s' r Hr.
  rewrite !part000_fetch_state, !part001_fetch_state, !static_fetch_state.
  destruct r as [data | m]; [| discriminate Hr].
  cbn in Hr. rewrite Hr. repeat split; reflexivity.
Qed.

Lemma latest_snapshot_wins_witness :
  let s := Part000.initial in
  let s' := apply_calls Part000.initial (Part000.fetchData (Resolved payload_error)) in
  let r := Resolved payload_five in
  apply_calls s (Part000.fetchData r) = apply_calls s' (Part000.fetchData r)
  /\ apply_calls s (Part001.fetchData r) = apply_calls s' (Part001.fetchData r)
  /\ scanData (apply_calls s (StaticViz.fetchData r))
     = scanData (apply_calls s' (StaticViz.fetchData r))
  /\ threshold (apply_calls s (StaticViz.fetchData r))
     = threshold (apply_calls s' (StaticViz.fetchData r)).
Proof.
  exact (latest_snapshot_wins float _ Part000.initial
           (apply_calls Part000.initial (Part000.fetchData (Resolved payload_error)))
           (Resolved payload_five) eq_refl).
Defined.

(** ** Polling *)

Section Polling.
Context {num : Type} `{JSNumber num}.
Variable c : Component num.

Lemma run_ticks (n : nat) (w : World num) :
  interval w = true ->
  issued (run c w (ticks n)) = (issued w + n)%nat
  /\ inflight (run c w (ticks n)) = (inflight w + n)%nat
  /\ shell (run c w (ticks n)) = shell w
  /\ calls (run c w (ticks n)) = calls w.
Proof.
  revert w. induction n as [| n IH]; intros w Hw.
  - cbn. rewrite !Nat.add_0_r. auto.
  - cbn [ticks repeat run fold_left step]. rewrite Hw.
    destruct (IH (call_fetchData w) Hw) as (E1 & E2 & E3 & E4).
    unfold run, ticks in *. rewrite E1, E2, E3, E4. cbn.
    rewrite !Nat.add_succ_r. auto.
Qed.

End Polling.

(** X10.  The timer does not wait for a request to complete: after the
    mount and [n] ticks with no completion in between,
    [static/lidar-viz.js] has sent [n + 1] requests and [part_000] has
    sent [n], all of them still in flight, and no setter has been
    called. *)
Theorem polling_does_not_wait :
  forall (num : Type) (N : JSNumber num) (n : nat),
    let polled_static :=
      run static_component (step static_component (before_mount static_component) Mount)
          (ticks n) in
    let polled_part000 :=
      run part000_component (step part000_component (before_mount part000_component) Mount)
          (ticks n) in
    issued polled_static = S n /\ inflight polled_static = S n
    /\ calls polled_static = []
    /\ issued polled_part000 = n /\ inflight polled_part000 = n
    /\ calls polled_part000 = [].
Proof.
  intros num N n polled_static polled_part000.
  destruct (run_ticks static_component n
              (step static_component (before_mount static_component) Mount) eq_refl)
    as (E1 & E2 & _ & E4).
  destruct (run_ticks part000_component n
              (step part000_component (before_mount part000_component) Mount) eq_refl)
    as (F1 & F2 & _ & F4).
  repeat split; assumption.
Qed.

(** ** Dots and colours *)

Section DotColours.
Context {num : Type} `{JSNumber num}.

Lemma dot_colours_static_points (centerX centerY : num) (threshold : jsnum num)
    (points : list (Point num)) (rest : list (Cmd num)) :
  dot_colours (flat_map (StaticRender.drawPoint centerX centerY threshold) points ++ rest)
  = map (fun point =>
           if StaticRender.isInGateArea point threshold then "#dc3545" else "#0d6efd")%string
        points
    ++ dot_colours rest.
Proof.
  induction points as [| point points IH]; [reflexivity |].
  cbn [flat_map map app StaticRender.drawPoint dot_colours].
  rewrite IH. reflexivity.
Qed.

Lemma static_render_colours (canvas : Canvas num) (threshold : jsnum num)
    (points : list (Point num)) :
  dot_colours (drawn (StaticRender.render (Some canvas) (Some points) threshold))
  = map (fun point =>
           if StaticRender.isInGateArea point threshold then "#dc3545" else "#0d6efd")%string
        points.
Proof.
  cbn [StaticRender.render drawn].
  change (dot_colours
            (flat_map (StaticRender.drawPoint (width canvas / $2)%js
                                              (height canvas / $2)%js threshold) points
             ++ StaticRender.drawLegend)
          = map (fun point =>
                   if StaticRender.isInGateArea point threshold
                   then "#dc3545" else "#0d6efd")%string points).
  rewrite dot_colours_static_points. cbn. apply app_nil_r.
Qed.

End DotColours.


Lemma nan_not_below (v : float) : PrimFloat.ltb nan v = false.
Proof. rewrite ltb_spec. reflexivity. Qed.

(** X12.  In binary64, a point that lacks its [angle] or its [distance]
    is never in the gate area, whatever its other fields and whatever the
    threshold: it is drawn, in the out-of-zone colour. *)
Theorem incomplete_point_is_out_of_zone :
  forall (point : Point float) (threshold : jsnum float),
    lacks_angle_or_distance point ->
    StaticRender.isInGateArea point threshold = false
    /\ hd_error (StaticRender.drawPoint 400%float 400%float threshold point)
       = Some (fillStyle "#0d6efd").
Proof.
  intros point threshold Hp.
  assert (E : StaticRender.isInGateArea point threshold = false).
  { unfold StaticRender.isInGateArea, jsnum_lt_r, num_gt.
    cbn [num_lt num_mul num_lit float_number].
    destruct Hp as [Ha | Hd].
    - rewrite Ha. reflexivity.
    - rewrite Hd. destruct threshold as [v |]; [| apply andb_false_r].
      change (PrimFloat.mul nan (float_of_Z 10)) with nan.
      rewrite nan_not_below. apply andb_false_r. }
  split; [exact E |].
  cbn [StaticRender.drawPoint hd_error]. rewrite E. reflexivity.
Qed.

Lemma incomplete_point_is_out_of_zone_witness :
  StaticRender.isInGateArea (mkPoint 50%float 0%float 0%float nan) (Some 1000%float)
  = false
  /\ hd_error (StaticRender.drawPoint 400%float 400%float (Some 1000%float)
                 (mkPoint 50%float 0%float 0%float nan))
     = Some (fillStyle "#0d6efd").
Proof.
  exact (incomplete_point_is_out_of_zone (mkPoint 50%float 0%float 0%float nan)
           (Some 1000%float) (or_intror eq_refl)).
Defined.

(** X13.  In exact arithmetic the gate area grows with the threshold and
    shrinks with the distance: a point in the gate area at one raw
    threshold is in it at every larger one, and so is every point of the
    same bearing that is no farther away. *)
Theorem gate_area_is_monotone :
  forall (point nearer : Point Q) (t t' : Q),
    StaticRender.isInGateArea point (Some t) = true ->
    (t <= t')%Q ->
    angle nearer = angle point ->
    (distance nearer <= distance point)%Q ->
    StaticRender.isInGateArea nearer (Some t') = true.
Proof.
  intros point nearer t t' Hin Ht Ha Hd.
  apply isInGateArea_true in Hin. destruct Hin as [Hlt Hcone].
  apply isInGateArea_true. rewrite Ha. split; [| exact Hcone].
  cbn [num_lt num_mul num_lit exact_number] in *.
  apply Qltb_lt. apply Qltb_lt in Hlt.
  apply Qle_lt_trans with (y := (distance point * inject_Z 10)%Q).
  - apply Qmult_le_compat_r; [exact Hd | discriminate].
  - exact (Qlt_le_trans _ _ _ Hlt Ht).
Qed.

Lemma gate_area_is_monotone_witness :
  StaticRender.isInGateArea (mkPoint 0 0 5 40)%Q (Some 1200%Q) = true.
Proof.
  exact (gate_area_is_monotone (mkPoint 0 0 5 99)%Q (mkPoint 0 0 5 40)%Q 1000%Q 1200%Q
           eq_refl ltac:(discriminate) eq_refl ltac:(discriminate)).
Defined.

(** ** The web-socket effect *)

Section SocketProperties.
Context {num : Type} `{JSNumber num} `{JSNumberTruth num}.

Lemma jsnum_or_usable (a : jsnum num) :
  RootSocket.usable_threshold (jsnum_or a $100%js).
Proof.
  unfold RootSocket.usable_threshold, jsnum_or.
  destruct a as [v |]; [destruct (num_truthy v) eqn:E |]; eauto.
Qed.

(** What a message can make the handler do. *)
Lemma messageHandler_cases (window_socket : bool) (event_data : RootSocket.EventData)
    (actions : list RootSocket.Action) :
  RootSocket.messageHandler window_socket event_data = Some actions ->
  actions = []
  \/ (window_socket = false /\ exists url, actions = [RootSocket.window_open url])
  \/ (exists scan t,
         actions = [RootSocket.call (setScanData (scan_or_empty scan));
                    RootSocket.call (setThreshold (jsnum_or t $100%js))]).
Proof.
  unfold RootSocket.messageHandler.
  destruct event_data as [| data]; [discriminate |].
  destruct (RootSocket.is_open_request data) as [[|] |]; [| | discriminate].
  - destruct window_socket; cbn.
    + intro E. injection E as <-. auto.
    + destruct (RootSocket.data_content data) as [[ty [url |]] |]; try discriminate.
      intro E. injection E as <-. right. left. eauto.
  - destruct (string_is (RootSocket.data_type data) "lidar_scan").
    + intro E. injection E as <-. right. right. eauto.
    + intro E. injection E as <-. auto.
Qed.

Lemma step_keeps_drawable (window_socket : bool) (w : RootSocket.World)
    (e : RootSocket.Event) :
  (exists points, scanData (RootSocket.shell w) = Some points) ->
  RootSocket.usable_threshold (threshold (RootSocket.shell w)) ->
  (exists points,
      scanData (RootSocket.shell (RootSocket.step window_socket w e)) = Some points)
  /\ RootSocket.usable_threshold
       (threshold (RootSocket.shell (RootSocket.step window_socket w e))).
Proof.
  intros Hs Ht. destruct e as [| event_data |]; cbn [RootSocket.step]; auto.
  destruct (RootSocket.listening w); auto.
  destruct (RootSocket.messageHandler window_socket event_data) as [actions |] eqn:E; auto.
  destruct (messageHandler_cases _ _ _ E)
    as [-> | [(_ & url & ->) | (scan & t & ->)]]; cbn; auto.
  split.
  - destruct scan; cbn; eauto.
  - apply jsnum_or_usable.
Qed.

Lemma run_keeps_drawable (window_socket : bool) (es : list RootSocket.Event)
    (w : RootSocket.World) :
  (exists points, scanData (RootSocket.shell w) = Some points) ->
  RootSocket.usable_threshold (threshold (RootSocket.shell w)) ->
  (exists points,
      scanData (RootSocket.shell (RootSocket.run window_socket w es)) = Some points)
  /\ RootSocket.usable_threshold
       (threshold (RootSocket.shell (RootSocket.run window_socket w es))).
Proof.
  revert w. induction es as [| e es IH]; intros w Hs Ht; [auto |].
  cbn. destruct (step_keeps_drawable window_socket w e Hs Ht) as [Hs' Ht'].
  exact (IH _ Hs' Ht').
Qed.

(** Without the handler on the socket, a turn that is not a mount changes
    nothing. *)
Lemma socket_step_after_cleanup (window_socket : bool) (w : RootSocket.World)
    (e : RootSocket.Event) :
  RootSocket.listening w = false -> RootSocket.own_socket_open w = false ->
  RootSocket.is_Mount e = false ->
  RootSocket.step window_socket w e = w.
Proof.
  intros Hl Ho He. destruct w as [s l o op cs]. cbn in Hl, Ho. subst l o.
  destruct e; [discriminate | reflexivity | reflexivity].
Qed.

Lemma socket_run_after_cleanup (window_socket : bool) (es : list RootSocket.Event)
    (w : RootSocket.World) :
  RootSocket.listening w = false -> RootSocket.own_socket_open w = false ->
  forallb (fun e => negb (RootSocket.is_Mount e)) es = true ->
  RootSocket.run window_socket w es = w.
Proof.
  intros Hl Ho. induction es as [| e es IH]; intro Hes; [reflexivity |].
  cbn in Hes. apply andb_true_iff in Hes. destruct Hes as [He Hes].
  apply negb_true_iff in He.
  cbn. rewrite (socket_step_after_cleanup window_socket w e Hl Ho He).
  exact (IH Hes).
Qed.

Lemma socket_run_snoc (window_socket : bool) (w : RootSocket.World)
    (es : list RootSocket.Event) (e : RootSocket.Event) :
  RootSocket.run window_socket w (es ++ [e])
  = RootSocket.step window_socket (RootSocket.run window_socket w es) e.
Proof. unfold RootSocket.run. rewrite fold_left_app. reflexivity. Qed.



End SocketProperties.

(** X15.  The cleanup of the socket effect removes the handler: after it,
    until the component is mounted again, no message changes the state,
    calls a setter or opens a window, and no socket made by the effect is
    left open. *)
Theorem socket_cleanup_stops_handling :
  forall (num : Type) (N : JSNumber num) (T : JSNumberTruth num)
         (window_socket : bool) (pre post : list RootSocket.Event),
    forallb (fun e => negb (RootSocket.is_Mount e)) post = true ->
    let stopped :=
      RootSocket.run window_socket RootSocket.before_mount (pre ++ [RootSocket.Unmount]) in
    RootSocket.run window_socket stopped post = stopped
    /\ RootSocket.listening stopped = false
    /\ RootSocket.own_socket_open stopped = false.
Proof.
  intros num N T window_socket pre post Hpost stopped.
  assert (Hl : RootSocket.listening stopped = false)
    by (unfold stopped; rewrite socket_run_snoc; reflexivity).
  assert (Ho : RootSocket.own_socket_open stopped = false)
    by (unfold stopped; rewrite socket_run_snoc; reflexivity).
  repeat split; try assumption.
  apply socket_run_after_cleanup; assumption.
Qed.

Lemma socket_cleanup_stops_handling_witness :
  let scan_message :=
    RootSocket.Receive
      (RootSocket.Parsed
         (RootSocket.mkMessage (Some "lidar_scan"%string) None (Some five_points)
                               (Some 80%float))) in
  let stopped :=
    RootSocket.run false RootSocket.before_mount
                   ([RootSocket.Mount; scan_message] ++ [RootSocket.Unmount]) in
  RootSocket.run false stopped [scan_message; RootSocket.Unmount] = stopped
  /\ RootSocket.listening stopped = false
  /\ RootSocket.own_socket_open stopped = false.
Proof.
  exact (socket_cleanup_stops_handling float _ _ false
           [RootSocket.Mount;
            RootSocket.Receive
              (RootSocket.Parsed
                 (RootSocket.mkMessage (Some "lidar_scan"%string) None (Some five_points)
                                       (Some 80%float)))]
           [RootSocket.Receive
              (RootSocket.Parsed
                 (RootSocket.mkMessage (Some "lidar_scan"%string) None (Some five_points)
                                       (Some 80%float)));
            RootSocket.Unmount]
           eq_refl).
Defined.


(** ** The test component and the start of the page *)

Section TestComponent.
Context {num : Type} `{JSNumberTruth num}.

Lemma test_view_after (s : Part002.State num) (r : Part002.Fetched num) :
  Part002.view (Part002.fetchData s r) =
  match r with
  | Part002.Body jsonData =>
      if Part002.json_truthy jsonData then Part002.DataView jsonData
      else Part002.LoadingView
  | Part002.Failed err_message =>
      Part002.ErrorView ("Failed to fetch LIDAR data: " ++ err_message)%string
  end.
Proof. destruct r; reflexivity. Qed.

Lemma after_fetches_snoc (s : Part002.State num) (rs : list (Part002.Fetched num))
    (r : Part002.Fetched num) :
  Part002.after_fetches s (rs ++ [r])
  = Part002.fetchData (Part002.after_fetches s rs) r.
Proof. unfold Part002.after_fetches. rewrite fold_left_app. reflexivity. Qed.

End TestComponent.

(** X17.  What the test component of [part_002] shows depends on the last
    completed request alone: after a failure the error block with that
    failure's message, after a success the body, or the loading line when
    the body counts as false ([null], [false], [0], the empty string).  A
    body with an [error] field is shown as data like any other, and a
    failure keeps the body held before. *)
Theorem test_view_shows_latest_response :
  forall (num : Type) (T : JSNumberTruth num) (s : Part002.State num)
         (rs : list (Part002.Fetched num)) (r : Part002.Fetched num),
    Part002.view (Part002.after_fetches s (rs ++ [r])) =
      match r with
      | Part002.Body jsonData =>
          if Part002.json_truthy jsonData then Part002.DataView jsonData
          else Part002.LoadingView
      | Part002.Failed err_message =>
          Part002.ErrorView ("Failed to fetch LIDAR data: " ++ err_message)%string
      end
    /\ Part002.data (Part002.after_fetches s (rs ++ [r])) =
       match r with
       | Part002.Body jsonData => jsonData
       | Part002.Failed _ => Part002.data (Part002.after_fetches s rs)
       end.
Proof.
  intros num T s rs r. rewrite after_fetches_snoc, test_view_after.
  split; [reflexivity | destruct r; reflexivity].
Qed.

(** X18.  The start-up script, run on any document.  The markup of the
    [catch] block is written, into the [root] element, only when that
    element exists and [ReactDOM.render] threw.  When the element is
    missing, which is the case the script tests for, the exception
    ['Root element not found!'] is caught and logged, and then the
    [catch] block itself raises a [TypeError] on the second
    [document.getElementById('root')]: the script ends with that
    exception and writes nothing to the page. *)
Theorem fallback_needs_the_root_element :
  forall (document : Bootstrap.Document) (render_outcome : option Bootstrap.Exception),
    let root := Bootstrap.getElementById document "root" in
    let ending := Bootstrap.initialize document render_outcome Bootstrap.blank in
    Bootstrap.innerHTML (fst ending)
      = match root, render_outcome with
        | Some rootElement, Some err =>
            [(rootElement, Bootstrap.failure_markup (Bootstrap.message err))]
        | _, _ => []
        end
    /\ snd ending
       = match root with
         | Some _ => inl tt
         | None =>
             inr (Bootstrap.TypeError "Cannot set properties of null (setting 'innerHTML')")
         end
    /\ Bootstrap.rendered (fst ending)
       = match root, render_outcome with
         | Some _, None => true
         | _, _ => false
         end
    /\ Bootstrap.console (fst ending)
       = Bootstrap.console_log "Initializing React component..."
         :: match root, render_outcome with
            | Some _, None => [Bootstrap.console_log "React component initialized"]
            | Some _, Some err =>
                [Bootstrap.console_error "Failed to initialize React:" err]
            | None, _ =>
                [Bootstrap.console_error "Failed to initialize React:"
                   (Bootstrap.Error "Root element not found!")]
            end.
Proof.
  intros document render_outcome root ending. unfold ending, root.
  unfold Bootstrap.initialize, Bootstrap.try_catch, Bootstrap.bind.
  cbn [Bootstrap.log Bootstrap.blank Bootstrap.console Bootstrap.rendered
       Bootstrap.innerHTML app].
  destruct (Bootstrap.getElementById document "root") as [rootElement |];
    [destruct render_outcome as [err |] |]; repeat split; reflexivity.
Qed.

(** X20.  One payload, one gate radius: for a payload without [error],
    the gate arcs [static/lidar-viz.js] draws from the raw threshold it
    holds and the threshold circle [part_001] draws from the normalized
    threshold it holds have the same radius, the payload's threshold
    divided by 10 and multiplied by the scale. *)
Theorem gate_radius_agrees_across_variants :
  forall (num : Type) (N : JSNumber num) (s s' : ShellState num) (data : Payload num)
         (canvas canvas' : Canvas num) (points points' : list (Point num)),
    truthy (data_error data) = false ->
    let radius := jsnum_mul (jsnum_div (data_threshold data) $10%js) $2%js in
    In (arc (width canvas / $2)%js (height canvas / $2)%js radius
            (- Math_PI / $18)%js (Math_PI / $18)%js)
       (drawn (StaticRender.render (Some canvas) (Some points)
                 (threshold (apply_calls s (StaticViz.fetchData (Resolved data))))))
    /\ In (arc (width canvas' / $2)%js (height canvas' / $2)%js radius
               $0%js ($2 * Math_PI)%js)
          (drawn (Part001Render.render (Some canvas') (Some points')
                    (threshold (apply_calls s' (Part001.fetchData (Resolved data)))))).
Proof.
  intros num N s s' data canvas canvas' points points' He radius.
  rewrite static_fetch_state, part001_fetch_state, He. cbn [threshold]. split.
  - apply In_gate_arc.
  - cbn [Part001Render.render drawn].
    apply in_or_app; right. apply in_or_app; right. apply in_or_app; right.
    apply in_or_app; left.
    unfold WedgeRender.drawThreshold. do 3 right. left. reflexivity.
Qed.

Lemma gate_radius_agrees_across_variants_witness :
  let radius := jsnum_mul (jsnum_div (data_threshold payload_five) $10%js) $2%js in
  In (arc (800%float / $2)%js (800%float / $2)%js radius
          (- Math_PI / $18)%js (Math_PI / $18)%js)
     (drawn (StaticRender.render (Some (mkCanvas 800%float 800%float)) (Some five_points)
               (threshold (apply_calls StaticViz.initial
                                       (StaticViz.fetchData (Resolved payload_five))))))
  /\ In (arc (600%float / $2)%js (600%float / $2)%js radius $0%js ($2 * Math_PI)%js)
        (drawn (Part001Render.render (Some (mkCanvas 600%float 600%float))
                  (Some five_points)
                  (threshold (apply_calls Part001.initial
                                          (Part001.fetchData (Resolved payload_five)))))).
Proof.
  exact (gate_radius_agrees_across_variants float _ StaticViz.initial Part001.initial
           payload_five (mkCanvas 800%float 800%float) (mkCanvas 600%float 600%float)
           five_points five_points eq_refl).
Defined.

(** ** The classification in canonical units *)

(** C1, counterexample.  In binary64 a distance can be strictly below the
    gate threshold, both in the canonical unit, and the point still be
    left out: with the raw threshold 1187, that is the canonical threshold
    118.7, the point at bearing 5 whose distance is the largest number
    below 118.7 is not classified in the gate area, because its distance
    times 10 rounds to 1187. *)
Lemma near_gate_point_left_out :
  (118.7%float * $10)%js = 1187%float
  /\ StaticRender.gateRadius (Some 1187%float) = Some 118.7%float
  /\ (distance near_gate_point <? 118.7%float)%js = true
  /\ isInGateZone_spec near_gate_point 118.7%float = true
  /\ (distance near_gate_point * $10)%js = 1187%float
  /\ StaticRender.isInGateArea near_gate_point (Some 1187%float) = false.
Proof. repeat split; reflexivity. Qed.

Lemma canonical_tests_agree_grid :
  Forall (fun d : Z =>
            Forall (fun g : Z =>
                      canonical_tests_agree (float_of_Z d) (float_of_Z g) = true)
                   (zrange 0 401))
         (zrange 0 401).
Proof.
  apply (forallb2_Forall (fun d g => canonical_tests_agree (float_of_Z d) (float_of_Z g))).
  vm_compute. reflexivity.
Qed.

(** C1, amended.  The classification of [static/lidar-viz.js] (and
    [part_003]) is true exactly when the point's distance times 10, that
    is the distance converted to the unit of the raw threshold, is
    strictly below the threshold and the bearing is below 10 or above 350.
    In exact arithmetic that is: the distance is strictly below the gate
    threshold in the canonical unit; in binary64 the two agree for every
    whole distance and whole canonical threshold up to 400, and can differ
    elsewhere by the rounding of the products.  At the canonical gate
    threshold 100 (raw threshold 1000, arcs drawn at radius
    1000 / 10 = 100), a point at bearing 5 and distance 99 is in the zone,
    at distance 100 it is not, a point at bearing 11 is not, and the
    bearings 10 and 350 are excluded. *)
Theorem gate_classification :
  (forall (num : Type) (N : JSNumber num) (point : Point num) (threshold : num),
      StaticRender.isInGateArea point (Some threshold) = true <->
      (distance point * $10 <? threshold)%js = true
      /\ ((angle point <? $10)%js = true \/ (angle point >? $350)%js = true))
  /\ (forall (point : Point Q) (gateThreshold : Q),
      StaticRender.isInGateArea point (Some (gateThreshold * $10)%js) = true <->
      (distance point < gateThreshold)%Q
      /\ ((angle point < inject_Z 10)%Q \/ (inject_Z 350 < angle point)%Q))
  /\ Forall (fun d : Z =>
               Forall (fun g : Z =>
                         canonical_tests_agree (float_of_Z d) (float_of_Z g) = true)
                      (zrange 0 401))
            (zrange 0 401)
  /\ StaticRender.gateRadius (Some 1000%float) = Some 100%float
  /\ StaticRender.isInGateArea (sample_point 5 99) (Some 1000%float) = true
  /\ StaticRender.isInGateArea (sample_point 5 100) (Some 1000%float) = false
  /\ StaticRender.isInGateArea (sample_point 11 50) (Some 1000%float) = false
  /\ StaticRender.isInGateArea (sample_point 10 50) (Some 1000%float) = false
  /\ StaticRender.isInGateArea (sample_point 350 50) (Some 1000%float) = false
  /\ StaticRender.isInGateArea (sample_point 355 50) (Some 1000%float) = true.
Proof.
  split; [intros; apply isInGateArea_true |].
  split; [apply isInGateArea_exact |].
  split; [exact canonical_tests_agree_grid |].
  repeat split; reflexivity.
Qed.

(** ** What the context rejects *)


Lemma orb_thrice (b : bool) : b || (b || (b || false)) = b.
Proof. destruct b; reflexivity. Qed.

Lemma context_raises_app (l1 l2 : list (Cmd float)) :
  context_raises (l1 ++ l2) = context_raises l1 || context_raises l2.
Proof. apply existsb_app. Qed.

Lemma performed_all (cmds : list (Cmd float)) :
  context_raises cmds = false -> performed cmds = cmds.
Proof.
  induction cmds as [| c rest IH]; [reflexivity |].
  cbn [context_raises existsb performed]. intro E.
  apply orb_false_iff in E. destruct E as [Ec Er].
  rewrite Ec. f_equal. exact (IH Er).
Qed.


Lemma wedge_points_accepted (centerX centerY : float) (points : list (Point float)) :
  context_raises (flat_map (WedgeRender.drawPoint centerX centerY) points) = false.
Proof. induction points as [| point points IH]; [reflexivity | exact IH]. Qed.



(** Of the calls of the wedge renderers the context can reject the
    threshold circle and the two wedges alone, and all or none. *)
Lemma wedge_scan_raises (centerX centerY : float) (threshold : jsnum float)
    (points : list (Point float)) :
  context_raises (WedgeRender.drawThreshold centerX centerY threshold
                  ++ WedgeRender.drawScan centerX centerY threshold points)
  = arc_raises (arc centerX centerY (jsnum_mul threshold WedgeRender.scale)
                    $0%js ($2 * Math_PI)%js).
Proof.
  unfold WedgeRender.drawScan.
  rewrite !context_raises_app, wedge_points_accepted.
  destruct threshold as [t |]; [| reflexivity].
  change (context_raises (WedgeRender.drawThreshold centerX centerY (Some t)))
    with (arc_raises (arc centerX centerY (jsnum_mul (Some t) WedgeRender.scale)
                          $0%js ($2 * Math_PI)%js) || false).
  change (context_raises (WedgeRender.drawZone centerX centerY (Some t)))
    with (arc_raises (arc centerX centerY (jsnum_mul (Some t) WedgeRender.scale)
                          $0%js ($2 * Math_PI)%js)
          || (arc_raises (arc centerX centerY (jsnum_mul (Some t) WedgeRender.scale)
                              $0%js ($2 * Math_PI)%js) || false)).
  destruct (arc_raises (arc centerX centerY (jsnum_mul (Some t) WedgeRender.scale)
                            $0%js ($2 * Math_PI)%js)); reflexivity.
Qed.

Lemma part001_pass_raises (canvas : Canvas float) (threshold : jsnum float)
    (points : list (Point float)) :
  context_raises (drawn (Part001Render.render (Some canvas) (Some points) threshold))
  = arc_raises (arc (width canvas / $2)%js (height canvas / $2)%js
                    (jsnum_mul threshold WedgeRender.scale) $0%js ($2 * Math_PI)%js).
Proof.
  cbn [Part001Render.render drawn].
  rewrite (app_assoc _ (flat_map _ _)), (app_assoc _ (_ ++ flat_map _ _)).
  rewrite context_raises_app, wedge_scan_raises. reflexivity.
Qed.

Lemma root_pass_raises (canvas : Canvas float) (threshold : jsnum float)
    (points : list (Point float)) :
  context_raises (drawn (RootViz.render (Some canvas) (Some points) threshold))
  = match points with
    | [] => false
    | _ :: _ =>
        arc_raises (arc (width canvas / $2)%js (height canvas / $2)%js
                        (jsnum_mul threshold WedgeRender.scale) $0%js ($2 * Math_PI)%js)
    end.
Proof.
  destruct points as [| point points]; [reflexivity |].
  cbn [RootViz.render drawn].
  rewrite (app_assoc _ (flat_map _ _)), (app_assoc _ (_ ++ flat_map _ _)).
  rewrite context_raises_app, wedge_scan_raises. reflexivity.
Qed.


(** X2.  In [part_000] (and [part_004], the same code) every completed
    request delivers exactly one of the two outcomes: the snapshot update
    or the error report. *)
Theorem one_outcome_per_request :
  forall (num : Type) (N : JSNumber num) (r : Response num),
    xorb (delivers_snapshot (Part000.fetchData r))
         (delivers_error (Part000.fetchData r)) = true
    /\ delivers_error (Part000.fetchData r) = is_failure r.
Proof.
  intros num N r. split; [apply part000_one_outcome |].
  destruct r as [data | m]; [| reflexivity].
  cbn. destruct (truthy (data_error data)) eqn:E; [| reflexivity].
  destruct (truthy_message _ E) as [m ->]. reflexivity.
Qed.

(** X7.  In [part_000] and [part_001] the held scan data is an array after
    every sequence of responses, also when payloads lack their [scan], so
    [scanData.forEach] is always there and the drawing effect of
    [part_001] raises no [TypeError] of its own.  What can still end a
    pass of [part_001] is the context: it rejects the threshold circle,
    and nothing else, when the held threshold makes its radius
    negative. *)
Theorem scan_data_stays_an_array :
  (forall (num : Type) (N : JSNumber num) (rs : list (Response num))
          (canvasRef : option (Canvas num)),
      (exists points,
          scanData (after_responses Part000.fetchData Part000.initial rs) = Some points)
      /\ (exists points,
          scanData (after_responses Part001.fetchData Part001.initial rs) = Some points)
      /\ throws (Part001Render.render canvasRef
                   (scanData (after_responses Part001.fetchData Part001.initial rs))
                   (threshold (after_responses Part001.fetchData Part001.initial rs)))
         = false)
  /\ (forall (canvas : Canvas float) (points : list (Point float)) (held : jsnum float),
      context_raises (drawn (Part001Render.render (Some canvas) (Some points) held))
      = arc_raises (arc (width canvas / $2)%js (height canvas / $2)%js
                        (jsnum_mul held WedgeRender.scale) $0%js ($2 * Math_PI)%js))
  /\ completes (Part001Render.render (Some (mkCanvas 600%float 600%float)) (Some [])
                                     (Some (-100)%float)) = false.
Proof.
  split; [| split; [intros; apply part001_pass_raises | reflexivity]].
  intros num N rs canvasRef.
  assert (E0 : exists points,
             scanData (after_responses Part000.fetchData Part000.initial rs) = Some points).
  { apply not_None_Some, part000_keeps_array. discriminate. }
  assert (E1 : exists points,
             scanData (after_responses Part001.fetchData Part001.initial rs) = Some points).
  { apply not_None_Some, part001_keeps_array. discriminate. }
  repeat split; try assumption.
  destruct E1 as [points ->]. destruct canvasRef; reflexivity.
Qed.

(** X8.  [static/lidar-viz.js] stores [data.scan] as it comes.  For a
    payload with neither [error] nor [scan] the first setter call is
    [setScanData(undefined)]; the drawing pass that follows it, on the
    threshold held until then, draws the whole backdrop and then raises a
    [TypeError] at [scanData.forEach].  (The backdrop is drawn in full
    when the context accepts the gate arcs of the held threshold.) *)
Theorem static_payload_without_scan_breaks_render :
  forall (s : ShellState float) (data : Payload float),
    truthy (error s) = false ->
    truthy (data_error data) = false ->
    data_scan data = None ->
    context_raises (StaticRender.drawBackdrop (mkCanvas 800%float 800%float) (threshold s))
      = false ->
    hd_error (StaticViz.fetchData (Resolved data)) = Some (setScanData None)
    /\ let during := apply_call s (setScanData None) in
       let pass :=
         StaticRender.render (StaticRender.canvasRef during) (scanData during)
                             (threshold during) in
       throws pass = true
       /\ performed (drawn pass)
          = StaticRender.drawBackdrop (mkCanvas 800%float 800%float) (threshold s).
Proof.
  intros s data Hs He Hscan Hctx. split.
  - cbn. rewrite He, Hscan. reflexivity.
  - cbn zeta. unfold StaticRender.canvasRef. cbn [apply_call error scanData threshold].
    rewrite Hs. split; [reflexivity |].
    cbn [StaticRender.render drawn]. apply performed_all. exact Hctx.
Qed.

Lemma static_payload_without_scan_breaks_render_witness :
  hd_error (StaticViz.fetchData (Resolved payload_without_scan)) = Some (setScanData None)
  /\ let during := apply_call StaticViz.initial (setScanData None) in
     let pass :=
       StaticRender.render (StaticRender.canvasRef during) (scanData during)
                           (threshold during) in
     throws pass = true
     /\ performed (drawn pass)
        = StaticRender.drawBackdrop (mkCanvas 800%float 800%float)
                                    (threshold StaticViz.initial).
Proof.
  exact (static_payload_without_scan_breaks_render StaticViz.initial payload_without_scan
           eq_refl eq_refl eq_refl eq_refl).
Defined.

(** X14.  Whatever messages arrive on the socket, in whatever order,
    incomplete or unparseable, [lidar-viz.js] holds an array as scan data
    and a usable threshold (a number that counts as true, or the default
    100), so [scanData.length] and [scanData.forEach] are always there and
    its drawing effect raises no [TypeError] of its own.  What can still
    end a pass is the context: it rejects the threshold circle, and
    nothing else, when the scan is not empty and the held threshold makes
    the radius negative. *)
Theorem socket_state_stays_drawable :
  (forall (num : Type) (N : JSNumber num) (T : JSNumberTruth num)
          (window_socket : bool) (es : list RootSocket.Event)
          (canvasRef : option (Canvas num)),
      let w := RootSocket.run window_socket RootSocket.before_mount es in
      (exists points, scanData (RootSocket.shell w) = Some points)
      /\ RootSocket.usable_threshold (threshold (RootSocket.shell w))
      /\ throws (RootViz.render canvasRef (scanData (RootSocket.shell w))
                                (threshold (RootSocket.shell w))) = false)
  /\ (forall (canvas : Canvas float) (points : list (Point float)) (held : jsnum float),
      context_raises (drawn (RootViz.render (Some canvas) (Some points) held))
      = match points with
        | [] => false
        | _ :: _ =>
            arc_raises (arc (width canvas / $2)%js (height canvas / $2)%js
                            (jsnum_mul held WedgeRender.scale) $0%js ($2 * Math_PI)%js)
        end)
  /\ (let w :=
        RootSocket.run false RootSocket.before_mount
          [RootSocket.Mount;
           RootSocket.Receive
             (RootSocket.Parsed
                (RootSocket.mkMessage (Some "lidar_scan"%string) None (Some five_points)
                                      (Some (-5)%float)))] in
      threshold (RootSocket.shell w) = Some (-5)%float
      /\ completes (RootViz.render RootViz.canvasRef (scanData (RootSocket.shell w))
                                   (threshold (RootSocket.shell w))) = false).
Proof.
  split; [| split; [intros; apply root_pass_raises | split; reflexivity]].
  intros num N T window_socket es canvasRef w.
  destruct (run_keeps_drawable window_socket es RootSocket.before_mount) as [Hs Ht].
  - exists []. reflexivity.
  - left. reflexivity.
  - fold w in Hs, Ht. repeat split; try assumption.
    destruct Hs as [points ->]. destruct canvasRef, points; reflexivity.
Qed.

Lemma static_canvas_while_no_error (s : ShellState float) :
  truthy (error s) = false ->
  StaticRender.canvasRef s = Some (mkCanvas 800%float 800%float).
Proof. intro E. unfold StaticRender.canvasRef. rewrite E. reflexivity. Qed.

(** X19.  From a response to the canvas in [static/lidar-viz.js].  A
    payload without [error] that carries an array of points makes two
    setter calls, and while no error is held a drawing pass follows each.
    The pass after [setScanData] draws the new points against the
    threshold held until then; the pass on the state after both calls, the
    one whose picture stays, draws them against the payload's threshold.
    Provided the context rejects no call, both passes complete and the
    dots of each are exactly the points of the payload, in order, at the
    reflected position, in the colour of their classification. *)
Theorem successful_fetch_is_drawn :
  forall (s : ShellState float) (data : Payload float) (points : list (Point float)),
    truthy (error s) = false ->
    truthy (data_error data) = false ->
    data_scan data = Some points ->
    let during := apply_call s (setScanData (Some points)) in
    let held := apply_calls s (StaticViz.fetchData (Resolved data)) in
    let first_pass :=
      StaticRender.render (StaticRender.canvasRef during) (scanData during)
                          (threshold during) in
    let last_pass :=
      StaticRender.render (StaticRender.canvasRef held) (scanData held) (threshold held) in
    context_raises (drawn first_pass) = false ->
    context_raises (drawn last_pass) = false ->
    StaticViz.fetchData (Resolved data)
      = [setScanData (Some points); setThreshold (data_threshold data)]
    /\ completes first_pass = true
    /\ completes last_pass = true
    /\ filled_arcs (performed (drawn first_pass))
       = map (fun point =>
                arc (400 + x point * 2)%float (400 - y point * 2)%float
                    (Some 2%float) 0%float ($2 * Math_PI)%js) points
    /\ filled_arcs (performed (drawn last_pass))
       = filled_arcs (performed (drawn first_pass))
    /\ dot_colours (performed (drawn first_pass))
       = map (fun point =>
                if StaticRender.isInGateArea point (threshold s)
                then "#dc3545" else "#0d6efd")%string points
    /\ dot_colours (performed (drawn last_pass))
       = map (fun point =>
                if StaticRender.isInGateArea point (data_threshold data)
                then "#dc3545" else "#0d6efd")%string points.
Proof.
  intros s data points Hs He Hp during held first_pass last_pass.
  assert (Eh : held = mkShell (Some points) (data_threshold data) (error s)).
  { unfold held. rewrite static_fetch_state, He, Hp. reflexivity. }
  assert (E1 : first_pass
               = StaticRender.render (Some (mkCanvas 800%float 800%float)) (Some points)
                                     (threshold s)).
  { unfold first_pass, during. cbn [apply_call scanData threshold].
    rewrite static_canvas_while_no_error; [reflexivity | exact Hs]. }
  assert (E2 : last_pass
               = StaticRender.render (Some (mkCanvas 800%float 800%float)) (Some points)
                                     (data_threshold data)).
  { unfold last_pass. rewrite Eh. cbn [scanData threshold].
    rewrite static_canvas_while_no_error; [reflexivity | exact Hs]. }
  rewrite E1, E2. intros C1 C2.
  rewrite (performed_all _ C1), (performed_all _ C2).
  unfold completes. rewrite C1, C2.
  rewrite !static_render_dots, !static_render_colours.
  split; [cbn; rewrite He, Hp; reflexivity |].
  repeat split; reflexivity.
Qed.

Lemma successful_fetch_is_drawn_witness :
  let s := StaticViz.initial in
  let data := payload_closer_gate in
  let points := five_points in
  let during := apply_call s (setScanData (Some points)) in
  let held := apply_calls s (StaticViz.fetchData (Resolved data)) in
  let first_pass :=
    StaticRender.render (StaticRender.canvasRef during) (scanData during)
                        (threshold during) in
  let last_pass :=
    StaticRender.render (StaticRender.canvasRef held) (scanData held) (threshold held) in
  StaticViz.fetchData (Resolved data)
    = [setScanData (Some points); setThreshold (data_threshold data)]
  /\ completes first_pass = true
  /\ completes last_pass = true
  /\ filled_arcs (performed (drawn first_pass))
     = map (fun point =>
              arc (400 + x point * 2)%float (400 - y point * 2)%float
                  (Some 2%float) 0%float ($2 * Math_PI)%js) points
  /\ filled_arcs (performed (drawn last_pass))
     = filled_arcs (performed (drawn first_pass))
  /\ dot_colours (performed (drawn first_pass))
     = map (fun point =>
              if StaticRender.isInGateArea point (threshold s)
              then "#dc3545" else "#0d6efd")%string points
  /\ dot_colours (performed (drawn last_pass))
     = map (fun point =>
              if StaticRender.isInGateArea point (data_threshold data)
              then "#dc3545" else "#0d6efd")%string points.
Proof.
  exact (successful_fetch_is_drawn StaticViz.initial payload_closer_gate five_points
           eq_refl eq_refl eq_refl eq_refl eq_refl).
Defined.

(** The two passes of the payload with threshold 800 colour the point at
    distance 90 differently: 900 is below the initial threshold 1000 and
    not below 800. *)
Lemma passes_of_closer_gate_differ :
  map (fun point => StaticRender.isInGateArea point (threshold StaticViz.initial))
      five_points
  = [true; false; false; false; true]
  /\ map (fun point => StaticRender.isInGateArea point (data_threshold payload_closer_gate))
         five_points
     = [true; false; false; false; false].
Proof. split; reflexivity. Qed.

(** ** Exceptions inside the [try] of [fetchData] *)



